(** * Climate-IQ: the aggregation and resilience layer

    A shallow embedding of
      - [backend/api_handlers/climate_trace_api.py] (class [ClimateTraceAPI])
      - [backend/api_handlers/climate_apis.py]      (class [ClimateAPIHandler])

    Python values decoded from JSON are an inductive type [json]; the Python
    operations the handlers apply to them (subscript, [in], [len], [.get],
    iteration, comparison, addition) are functions that return [result], the
    [Raise] case carrying the exception.  A handler's [try] body lives in the
    monad [E] (outbound requests are appended to a log, the upstream answers
    through an oracle); its [except Exception] clause turns the body into a
    computation of [M], which has no way to raise.

    Keyword arguments with defaults are ordinary arguments here: a caller
    that relies on a default passes its value.  Calls to [logger.error]
    change nothing the handlers return or send and are left out. *)

From Stdlib Require Import ZArith QArith Qabs Lia Lqa.
From Stdlib Require Import String Ascii DecimalString List Bool.
From Stdlib Require Import Sorted Permutation.
Import ListNotations.

Local Open Scope Z_scope.
Local Open Scope string_scope.

Set Warnings "-register-all".

(* ================================================================== *)
(** ** Python values and the operations used on them                  *)
(* ================================================================== *)

Module Py.

(** What [response.json()] can return, and what the handlers build.  A Python
    [int] is [JInt], a (finite) [float] is [JFloat] with its exact rational
    value.  Comparisons of numbers are exact in Python and here; the float
    additions, sums and divisions of [climate_apis.py], which round, are
    taken from the surroundings ([float_add], [float_sum], [float_div]
    below) and nothing is assumed of them.  A [dict] keeps its insertion
    order; its keys are strings. *)
Inductive json : Type :=
| JNull
| JBool (b : bool)
| JInt (z : Z)
| JFloat (q : Q)
| JStr (s : string)
| JArr (l : list json)
| JObj (m : list (string * json)).

Inductive exn_kind : Type :=
| KeyError | TypeError | AttributeError | IndexError | ValueError
| ZeroDivisionError | RequestException | OverflowError.

(** An exception: its class and [str(e)]. *)
Record exn : Type := Exn { exn_class : exn_kind; exn_str : string }.

Inductive result (A : Type) : Type :=
| Ok (a : A)
| Raise (e : exn).
Arguments Ok {A} a.
Arguments Raise {A} e.

Definition bindR {A B} (r : result A) (k : A -> result B) : result B :=
  match r with
  | Ok a => k a
  | Raise e => Raise e
  end.

Notation "x <- r ;; k" := (bindR r (fun x => k))
  (at level 61, r at next level, right associativity).

(** [d.get(k)] on the association list of a dict. *)
Fixpoint lookup (k : string) (m : list (string * json)) : option json :=
  match m with
  | [] => None
  | (k', v) :: m' => if String.eqb k k' then Some v else lookup k m'
  end.

Definition has_key (k : string) (m : list (string * json)) : bool :=
  match lookup k m with Some _ => true | None => false end.

Definition dict_get (m : list (string * json)) (k : string) (dflt : json) : json :=
  match lookup k m with Some v => v | None => dflt end.

(** [v.get(k, dflt)]: only a dict has the method. *)
Definition py_get (v : json) (k : string) (dflt : json) : result json :=
  match v with
  | JObj m => Ok (dict_get m k dflt)
  | _ => Raise (Exn AttributeError "object has no attribute 'get'")
  end.

(** [v[k]] with a string key. *)
Definition py_getitem (v : json) (k : string) : result json :=
  match v with
  | JObj m =>
      match lookup k m with
      | Some x => Ok x
      | None => Raise (Exn KeyError ("'" ++ k ++ "'"))
      end
  | JArr _ => Raise (Exn TypeError "list indices must be integers or slices, not str")
  | JStr _ => Raise (Exn TypeError "string indices must be integers, not 'str'")
  | _ => Raise (Exn TypeError "object is not subscriptable")
  end.

Definition string_of_ascii (c : ascii) : string := String c EmptyString.

(** [v[i]] with a literal index [i >= 0]. *)
Definition py_getitem_idx (v : json) (i : nat) : result json :=
  match v with
  | JArr l =>
      match nth_error l i with
      | Some x => Ok x
      | None => Raise (Exn IndexError "list index out of range")
      end
  | JStr s =>
      match String.get i s with
      | Some c => Ok (JStr (string_of_ascii c))
      | None => Raise (Exn IndexError "string index out of range")
      end
  | JObj _ => Raise (Exn KeyError (NilZero.string_of_uint (Nat.to_uint i)))
  | _ => Raise (Exn TypeError "object is not subscriptable")
  end.

Definition is_substring (k s : string) : bool :=
  match String.index 0 k s with Some _ => true | None => false end.

Definition is_str (k : string) (v : json) : bool :=
  match v with JStr s => String.eqb k s | _ => false end.

(** [k in v] for a string [k]: key of a dict, element of a list, substring of
    a string; anything else is not iterable. *)
Definition py_contains (k : string) (v : json) : result bool :=
  match v with
  | JObj m => Ok (has_key k m)
  | JArr l => Ok (existsb (is_str k) l)
  | JStr s => Ok (is_substring k s)
  | _ => Raise (Exn TypeError "argument is not iterable")
  end.

Definition py_len (v : json) : result nat :=
  match v with
  | JArr l => Ok (List.length l)
  | JObj m => Ok (List.length m)
  | JStr s => Ok (String.length s)
  | _ => Raise (Exn TypeError "object has no len()")
  end.

Fixpoint chars (s : string) : list json :=
  match s with
  | EmptyString => []
  | String c s' => JStr (string_of_ascii c) :: chars s'
  end.

(** The elements a [for] loop over [v] visits. *)
Definition py_iter (v : json) : result (list json) :=
  match v with
  | JArr l => Ok l
  | JObj m => Ok (map (fun kv => JStr (fst kv)) m)
  | JStr s => Ok (chars s)
  | _ => Raise (Exn TypeError "object is not iterable")
  end.

(** Truth value of [v] in an [if]. *)
Definition py_truthy (v : json) : bool :=
  match v with
  | JNull => false
  | JBool b => b
  | JInt z => negb (z =? 0)%Z
  | JFloat q => negb (Qeq_bool q 0)
  | JStr s => negb (String.eqb s EmptyString)
  | JArr l => match l with [] => false | _ => true end
  | JObj m => match m with [] => false | _ => true end
  end.

(** The numeric value of a Python number ([bool] is a subclass of [int]). *)
Definition as_number (v : json) : option Q :=
  match v with
  | JInt z => Some (inject_Z z)
  | JFloat q => Some q
  | JBool b => Some (inject_Z (if b then 1 else 0))
  | _ => None
  end.

Definition cmp_type_error : exn :=
  Exn TypeError "'<=' not supported between instances".

(** [a <= v] and [v <= a] where [a] is a number. *)
Definition num_le_py (a : Q) (v : json) : result bool :=
  match as_number v with
  | Some q => Ok (Qle_bool a q)
  | None => Raise cmp_type_error
  end.

Definition py_le_num (v : json) (a : Q) : result bool :=
  match as_number v with
  | Some q => Ok (Qle_bool q a)
  | None => Raise cmp_type_error
  end.

Definition is_int (v : json) : option Z :=
  match v with
  | JInt z => Some z
  | JBool b => Some (if b then 1 else 0)
  | _ => None
  end.

(** [a + v] where [a] is a number.  int + int is the exact int.  With a
    float on either side the result is the float Python computes from the
    two values, [fadd x y]: the double nearest to the sum of two floats; an
    int operand is converted first, which raises [OverflowError] when it is
    out of range.  A non-number on the right is a [TypeError]. *)
Definition py_add (fadd : Q -> Q -> result Q) (a v : json) : result json :=
  match is_int a, is_int v with
  | Some x, Some y => Ok (JInt (x + y))
  | _, _ =>
      match as_number a, as_number v with
      | Some x, Some y => s <- fadd x y ;; Ok (JFloat s)
      | _, _ => Raise (Exn TypeError "unsupported operand type(s) for +")
      end
  end.

(** [a / b] on numbers (true division) in [climate_trace_api.py]: the
    quotient is written exactly; what is proved of it is only when the
    division raises. *)
Definition py_div (a b : Q) : result Q :=
  if Qeq_bool b 0 then Raise (Exn ZeroDivisionError "float division by zero")
  else Ok (a / b)%Q.

(** *** Case conversion of ASCII text.
    [lower] and [title] are what [str.lower] and [str.title] do to a string
    of ASCII characters; they are used to build example surroundings.  The
    handlers take [str.lower] and [str.title] from the environment, and
    what is proved of them holds for any pair of functions. *)

Definition is_upper (c : ascii) : bool :=
  let n := nat_of_ascii c in (65 <=? n)%nat && (n <=? 90)%nat.

Definition is_lower (c : ascii) : bool :=
  let n := nat_of_ascii c in (97 <=? n)%nat && (n <=? 122)%nat.

Definition to_lower (c : ascii) : ascii :=
  if is_upper c then ascii_of_nat (nat_of_ascii c + 32) else c.

Definition to_upper (c : ascii) : ascii :=
  if is_lower c then ascii_of_nat (nat_of_ascii c - 32) else c.

Fixpoint lower (s : string) : string :=
  match s with
  | EmptyString => EmptyString
  | String c s' => String (to_lower c) (lower s')
  end.

(** [title_from prev s]: [prev] tells whether the previous character was a
    cased letter; a letter that follows one is lowered, any other letter is
    raised. *)
Fixpoint title_from (prev : bool) (s : string) : string :=
  match s with
  | EmptyString => EmptyString
  | String c s' =>
      if is_lower c then
        String (if prev then c else to_upper c) (title_from true s')
      else if is_upper c then
        String (if prev then to_lower c else c) (title_from true s')
      else String c (title_from false s')
  end.

Definition title (s : string) : string := title_from false s.

(** [sep.join(l)] *)
Definition join (sep : string) (l : list string) : string := String.concat sep l.

(** [v.values()]: only a dict has the method. *)
Definition py_values (v : json) : result (list json) :=
  match v with
  | JObj m => Ok (map snd m)
  | _ => Raise (Exn AttributeError "object has no attribute 'values'")
  end.

(** [d[k] = v] on the association list of a dict: an existing key keeps its
    place, a new key goes last. *)
Fixpoint dict_set (m : list (string * json)) (k : string) (v : json)
  : list (string * json) :=
  match m with
  | [] => [(k, v)]
  | (k', v') :: m' =>
      if String.eqb k k' then (k, v) :: m' else (k', v') :: dict_set m' k v
  end.

(** [v > a] where [a] is a number. *)
Definition py_gt_num (v : json) (a : Q) : result bool :=
  match as_number v with
  | Some q => Ok (negb (Qle_bool q a))
  | None => Raise (Exn TypeError "'>' not supported between instances")
  end.

Fixpoint all_ints (values : list json) : option (list Z) :=
  match values with
  | [] => Some []
  | v :: rest =>
      match is_int v, all_ints rest with
      | Some z, Some zs => Some (z :: zs)
      | _, _ => None
      end
  end.

(** The built-in [sum(values)].  Ints add up exactly.  For any other list
    the built-in returns a float or raises ([TypeError] at an element that
    is not a number, [OverflowError] at an int out of range); how it rounds
    depends on the interpreter, so that case is [fsum values]. *)
Definition py_sum (fsum : list json -> result Q) (values : list json) : result json :=
  match all_ints values with
  | Some zs => Ok (JInt (fold_right Z.add 0 zs))
  | None => s <- fsum values ;; Ok (JFloat s)
  end.

(** [v is None] *)
Definition is_none (v : json) : bool :=
  match v with JNull => true | _ => false end.

End Py.

(* ================================================================== *)
(** ** Outbound requests, the clock and [try ... except Exception]    *)
(* ================================================================== *)

Module Net.
Import Py.

(** One call of [session.get] or [session.post]. *)
Record request : Type := Request {
  req_method : string;
  req_url : string;
  req_params : list (string * json);
  req_headers : list (string * string);
  req_json : option json
}.

(** What [session.get(...)], [raise_for_status()] and [response.json()]
    together yield: the decoded body, or the exception one of them raised
    (transport failure, non-2xx status, body that is not JSON). *)
Inductive outcome : Type :=
| Resp (body : json)
| Fail (e : exn).

(** The options read from [config.settings]. *)
Record settings : Type := Settings {
  OPENWEATHER_API_BASE : string;
  OPENWEATHER_API_KEY : string;
  CARBON_INTERFACE_API_BASE : string;
  CARBON_INTERFACE_API_KEY : string;
  CLIMATETRACE_API_BASE : string
}.

(** Everything outside the program: configuration, the upstream services
    (their answer may depend on the requests made so far), the clock, and
    the library functions whose results the handlers pass on: Python's [str]
    of a float, [str.lower], [str.title] and the float addition of
    [py_add]. *)
Record env : Type := Env {
  cfg : settings;
  upstream : list request -> request -> outcome;
  now_iso : list request -> string;
  now_epoch : list request -> Z;
  str_float : Q -> string;
  str_lower : string -> string;
  str_title : string -> string;
  float_add : Q -> Q -> result Q
}.

(** A computation that may raise, and one that cannot; both thread the log
    of requests issued so far. *)
Definition E (A : Type) : Type := env -> list request -> result A * list request.
Definition M (A : Type) : Type := env -> list request -> A * list request.

Definition retE {A} (a : A) : E A := fun _ log => (Ok a, log).

Definition bindE {A B} (c : E A) (k : A -> E B) : E B :=
  fun e log =>
    match c e log with
    | (Ok a, log') => k a e log'
    | (Raise x, log') => (Raise x, log')
    end.

Definition retM {A} (a : A) : M A := fun _ log => (a, log).

Definition liftR {A} (r : result A) : E A := fun _ log => (r, log).

Definition liftM {A} (c : M A) : E A :=
  fun e log => let (a, log') := c e log in (Ok a, log').

Definition ask : E env := fun e log => (Ok e, log).

Definition datetime_now_isoformat : E string := fun e log => (Ok (now_iso e log), log).

(** [try: body  except Exception as e: handler e] *)
Definition try_except {A} (body : E A) (handler : exn -> M A) : M A :=
  fun e log =>
    match body e log with
    | (Ok a, log') => (a, log')
    | (Raise x, log') => handler x e log'
    end.

Notation "x <~ c ;; k" := (bindE c (fun x => k))
  (at level 61, c at next level, right associativity).

Definition send (r : request) : E json :=
  fun e log =>
    (match upstream e log r with Resp j => Ok j | Fail x => Raise x end,
     (log ++ [r])%list).

Definition session_get (url : string) (params : list (string * json)) : E json :=
  send (Request "GET" url params [] None).

(** [{'error': str(e)}] *)
Definition error_dict (e : exn) : json := JObj [("error", JStr (exn_str e))].

Definition on_error : exn -> M json := fun e => retM (error_dict e).

(** [str(n)] for an [int]. *)
Definition str_int (z : Z) : string := NilZero.string_of_int (Z.to_int z).

(** The remaining options of [config.settings] and the library calls the
    handlers make besides those of [env]: [datetime.now().strftime('%Y%m%d')],
    the same for [datetime.now() - timedelta(days=n)], [round(x, 2)] of a
    float, the float case of the built-in [sum] (see [py_sum]) and the true
    division [x / n] of a number by a positive int (a float, or the
    [OverflowError] of an int out of range). *)
Record context : Type := Context {
  NASA_API_BASE : string;
  NASA_API_KEY : string;
  WORLD_BANK_API_BASE : string;
  today_ymd : list request -> string;
  days_ago_ymd : Z -> list request -> string;
  round2 : Q -> Q;
  float_sum : list json -> result Q;
  float_div : Q -> Z -> result Q
}.

End Net.

(* ================================================================== *)
(** ** climate_trace_api.py                                           *)
(* ================================================================== *)

Module ClimateTraceAPI.
Import Py Net.

(** [if l: params[name] = ','.join(l)] *)
Definition list_param (name : string) (l : option (list string))
  : list (string * json) :=
  match l with
  | Some (x :: r) => [(name, JStr (join "," (x :: r)))]
  | _ => []
  end.

(** [if admin_id: params['adminId'] = admin_id] *)
Definition admin_param (admin_id : option Z) : list (string * json) :=
  match admin_id with
  | Some z => if (z =? 0)%Z then [] else [("adminId", JInt z)]
  | None => []
  end.

Definition base_url : E string := fun e log => (Ok (CLIMATETRACE_API_BASE (cfg e)), log).

(** The [params] dict of [search_emissions_sources], in insertion order. *)
Definition assets_params (limit year offset : Z)
    (countries sectors subsectors continents groups : option (list string))
    (admin_id : option Z) : list (string * json) :=
  ([("limit", JInt (Z.min limit 1000)); ("year", JInt year); ("offset", JInt offset)]
   ++ list_param "countries" countries
   ++ list_param "sectors" sectors
   ++ list_param "subsectors" subsectors
   ++ list_param "continents" continents
   ++ list_param "groups" groups
   ++ admin_param admin_id)%list.

Definition search_emissions_sources (limit year offset : Z)
    (countries sectors subsectors continents groups : option (list string))
    (admin_id : option Z) : M json :=
  try_except
    (base <~ base_url ;;
     session_get (base ++ "/assets")
       (assets_params limit year offset countries sectors subsectors
          continents groups admin_id))
    on_error.

Definition get_source_details (source_id : Z) : M json :=
  try_except
    (if negb ((1 <=? source_id)%Z && (source_id <=? 5000000)%Z) then
       retE (JObj [("error", JStr "Source ID must be between 1 and 5,000,000")])
     else
       base <~ base_url ;;
       session_get (base ++ "/assets/" ++ str_int source_id) [])
    on_error.

(** The [params] literal of [get_country_emissions]. *)
Definition year_params (since to : Z) : list (string * json) :=
  [("since", JInt (Z.max 2000 (Z.min since 2050)));
   ("to", JInt (Z.max 2000 (Z.min to 2050)))].

Definition country_params (since to : Z)
    (sector subsector continents groups countries : option (list string))
  : list (string * json) :=
  (year_params since to
   ++ list_param "sector" sector
   ++ list_param "subsectors" subsector
   ++ list_param "continents" continents
   ++ list_param "groups" groups
   ++ list_param "countries" countries)%list.

Definition get_country_emissions (since to : Z)
    (sector subsector continents groups countries : option (list string)) : M json :=
  try_except
    (base <~ base_url ;;
     session_get (base ++ "/country/emissions")
       (country_params since to sector subsector continents groups countries))
    on_error.

Definition point_param (str : Q -> string) (point : option (list Q))
  : list (string * json) :=
  match point with
  | Some [x; y] => [("point", JStr (str x ++ "," ++ str y))]
  | _ => []
  end.

Definition bbox_param (str : Q -> string) (bbox : option (list Q))
  : list (string * json) :=
  match bbox with
  | Some [a; b; c; d] => [("bbox", JStr (join "," (map str [a; b; c; d])))]
  | _ => []
  end.

Definition name_param (name : option string) : list (string * json) :=
  match name with
  | Some s => if String.eqb s EmptyString then [] else [("name", JStr (substring 0 50 s))]
  | None => []
  end.

Definition level_param (level : option Z) : list (string * json) :=
  match level with
  | Some l => if ((0 <=? l)%Z && (l <=? 2)%Z) then [("level", JInt l)] else []
  | None => []
  end.

Definition admin_params (str : Q -> string) (limit offset : Z)
    (point bbox : option (list Q)) (name : option string) (level : option Z)
  : list (string * json) :=
  ([("limit", JInt (Z.min limit 1000)); ("offset", JInt offset)]
   ++ point_param str point
   ++ bbox_param str bbox
   ++ name_param name
   ++ level_param level)%list.

Definition search_administrative_areas (limit offset : Z)
    (point bbox : option (list Q)) (name : option string) (level : option Z)
  : M json :=
  try_except
    (base <~ base_url ;;
     e <~ ask ;;
     session_get (base ++ "/admins/search")
       (admin_params (str_float e) limit offset point bbox name level))
    on_error.

Definition get_sectors : M json :=
  try_except
    (base <~ base_url ;;
     session_get (base ++ "/definitions/sectors") [])
    on_error.

(** The two offsets and the corners of the box are written with their
    exact values.  The divisor [111.0 * abs(lat)] is a zero float exactly
    when [lat] is zero, so the exact test tells when the division raises. *)
Definition get_emissions_by_location (lat lon : Q) (radius_km : Z) : M json :=
  try_except
    (lat_offset <~ liftR (py_div (inject_Z radius_km) 111) ;;
     lon_offset <~ liftR (py_div (inject_Z radius_km) (111 * Qabs lat)) ;;
     let bbox := [lon - lon_offset; lat - lat_offset;
                  lon + lon_offset; lat + lat_offset]%Q in
     admin_areas <~ liftM (search_administrative_areas 10 0 None (Some bbox) None None) ;;
     emissions_sources <~
       liftM (search_emissions_sources 50 2022 0 None None None None None None) ;;
     timestamp <~ datetime_now_isoformat ;;
     retE (JObj [("location", JObj [("lat", JFloat lat); ("lon", JFloat lon)]);
                 ("radius_km", JInt radius_km);
                 ("administrative_areas", admin_areas);
                 ("emissions_sources", emissions_sources);
                 ("timestamp", JStr timestamp)]))
    on_error.

(** [if years: params['years'] = ','.join(map(str, years))] *)
Definition years_param (years : option (list Z)) : list (string * json) :=
  match years with
  | Some (y :: r) => [("years", JStr (join "," (map str_int (y :: r))))]
  | _ => []
  end.

(** [if gas: params['gas'] = gas] *)
Definition gas_param (gas : option string) : list (string * json) :=
  match gas with
  | Some g => if String.eqb g EmptyString then [] else [("gas", JStr g)]
  | None => []
  end.

Definition emissions_params (years : option (list Z)) (admin_id : option Z)
    (subsectors sectors continents groups countries : option (list string))
    (gas : option string) : list (string * json) :=
  (years_param years
   ++ admin_param admin_id
   ++ list_param "subsectors" subsectors
   ++ list_param "sectors" sectors
   ++ list_param "continents" continents
   ++ list_param "groups" groups
   ++ list_param "countries" countries
   ++ gas_param gas)%list.

Definition get_asset_emissions (years : option (list Z)) (admin_id : option Z)
    (subsectors sectors continents groups countries : option (list string))
    (gas : option string) : M json :=
  try_except
    (base <~ base_url ;;
     session_get (base ++ "/assets/emissions")
       (emissions_params years admin_id subsectors sectors continents groups
          countries gas))
    on_error.

(** [admin_id: Union[int, str]], as it appears in the f-string. *)
Definition str_admin (admin_id : Z + string) : string :=
  match admin_id with
  | inl z => str_int z
  | inr s => s
  end.

Definition get_admin_geojson (admin_id : Z + string) : M json :=
  try_except
    (base <~ base_url ;;
     session_get (base ++ "/admins/" ++ str_admin admin_id ++ "/geojson") [])
    on_error.

Definition get_subsectors : M json :=
  try_except
    (base <~ base_url ;;
     session_get (base ++ "/definitions/subsectors") [])
    on_error.

Definition get_countries : M json :=
  try_except
    (base <~ base_url ;;
     session_get (base ++ "/definitions/countries") [])
    on_error.

Definition get_groups : M json :=
  try_except
    (base <~ base_url ;;
     session_get (base ++ "/definitions/groups") [])
    on_error.

Definition get_continents : M json :=
  try_except
    (base <~ base_url ;;
     session_get (base ++ "/definitions/continents") [])
    on_error.

Definition get_gases : M json :=
  try_except
    (base <~ base_url ;;
     session_get (base ++ "/definitions/gases") [])
    on_error.

Definition get_global_emissions_summary (year : Z) : M json :=
  try_except
    (country_emissions <~
       liftM (get_country_emissions year year None None None None None) ;;
     asset_emissions <~
       liftM (get_asset_emissions (Some [year]) None None None None None None None) ;;
     sectors <~ liftM get_sectors ;;
     countries <~ liftM get_countries ;;
     timestamp <~ datetime_now_isoformat ;;
     retE (JObj [("year", JInt year);
                 ("country_emissions", country_emissions);
                 ("asset_emissions", asset_emissions);
                 ("available_sectors", sectors);
                 ("available_countries", countries);
                 ("timestamp", JStr timestamp)]))
    on_error.

End ClimateTraceAPI.

(* ================================================================== *)
(** ** climate_apis.py                                                *)
(* ================================================================== *)

Module ClimateAPIHandler.
Import Py Net.

(** *** Weather *)

Record city : Type := City {
  city_lat : Q;
  city_lon : Q;
  city_temp : Z;
  city_country : string
}.

Definition city_data : list (string * city) :=
  [("new york", City 40.7128 (-74.0060) 15 "US");
   ("london", City 51.5074 (-0.1278) 12 "GB");
   ("tokyo", City 35.6762 139.6503 18 "JP");
   ("paris", City 48.8566 2.3522 14 "FR");
   ("berlin", City 52.5200 13.4050 11 "DE");
   ("sydney", City (-33.8688) 151.2093 22 "AU");
   ("mumbai", City 19.0760 72.8777 28 "IN");
   ("beijing", City 39.9042 116.4074 16 "CN");
   ("moscow", City 55.7558 37.6176 8 "RU");
   ("cairo", City 30.0444 31.2357 25 "EG")]%Q.

Fixpoint city_lookup (k : string) (t : list (string * city)) : option city :=
  match t with
  | [] => None
  | (k', c) :: t' => if String.eqb k k' then Some c else city_lookup k t'
  end.

Definition new_york : city := City 40.7128 (-74.0060) 15 "US".

Definition fallback_note : string := "Using fallback data - API unavailable".

Definition _get_fallback_weather_data (e : env) (location : string) : json :=
  let location_lower := str_lower e location in
  let city_info :=
    match city_lookup location_lower city_data with
    | Some c => c
    | None => new_york
    end in
  JObj [("location", JStr (str_title e location));
        ("country", JStr (city_country city_info));
        ("temperature", JInt (city_temp city_info));
        ("humidity", JInt 65);
        ("pressure", JInt 1013);
        ("weather", JStr "partly cloudy");
        ("wind_speed", JFloat 3.5);
        ("coordinates", JObj [("lat", JFloat (city_lat city_info));
                              ("lon", JFloat (city_lon city_info))]);
        ("note", JStr fallback_note)].

(** [data[k1][k2]] *)
Definition path2 (data : json) (k1 k2 : string) : result json :=
  v <- py_getitem data k1 ;; py_getitem v k2.

(** The dict literal returned on the live path, its items evaluated in
    source order. *)
Definition weather_of_response (data : json) : result json :=
  name <- py_getitem data "name" ;;
  country <- path2 data "sys" "country" ;;
  temp <- path2 data "main" "temp" ;;
  humidity <- path2 data "main" "humidity" ;;
  pressure <- path2 data "main" "pressure" ;;
  w <- py_getitem data "weather" ;;
  w0 <- py_getitem_idx w 0 ;;
  description <- py_getitem w0 "description" ;;
  speed <- path2 data "wind" "speed" ;;
  lat <- path2 data "coord" "lat" ;;
  lon <- path2 data "coord" "lon" ;;
  Ok (JObj [("location", name);
            ("country", country);
            ("temperature", temp);
            ("humidity", humidity);
            ("pressure", pressure);
            ("weather", description);
            ("wind_speed", speed);
            ("coordinates", JObj [("lat", lat); ("lon", lon)])]).

Definition weather_request (s : settings) (location : string) : request :=
  Request "GET" (OPENWEATHER_API_BASE s ++ "/weather")
    [("q", JStr location); ("appid", JStr (OPENWEATHER_API_KEY s));
     ("units", JStr "metric")] [] None.

Definition get_weather_data (location : string) : M json :=
  try_except
    (e <~ ask ;;
     data <~ send (weather_request (cfg e) location) ;;
     liftR (weather_of_response data))
    (fun _ => fun e log => (_get_fallback_weather_data e location, log)).

(** *** Air quality *)

Definition fallback_components : json :=
  JObj [("co", JFloat 233.0); ("no", JFloat 0.01); ("no2", JFloat 20.0);
        ("o3", JFloat 68.0); ("so2", JFloat 6.0); ("pm2_5", JFloat 15.0);
        ("pm10", JFloat 25.0); ("nh3", JFloat 0.5)]%Q.

Definition fallback_air_quality (timestamp : Z) : json :=
  JObj [("aqi", JInt 3);
        ("components", fallback_components);
        ("timestamp", JInt timestamp);
        ("note", JStr fallback_note)].

Definition no_air_quality : json :=
  JObj [("error", JStr "No air quality data available")].

(** What follows [data = response.json()] in the [try] body. *)
Definition air_quality_of_response (data : json) : result json :=
  l <- py_getitem data "list" ;;
  if py_truthy l then
    l' <- py_getitem data "list" ;;
    aqi_data <- py_getitem_idx l' 0 ;;
    aqi <- path2 aqi_data "main" "aqi" ;;
    components <- py_getitem aqi_data "components" ;;
    dt <- py_getitem aqi_data "dt" ;;
    Ok (JObj [("aqi", aqi); ("components", components); ("timestamp", dt)])
  else Ok no_air_quality.

Definition air_quality_request (s : settings) (lat lon : Q) : request :=
  Request "GET" (OPENWEATHER_API_BASE s ++ "/air_pollution")
    [("lat", JFloat lat); ("lon", JFloat lon);
     ("appid", JStr (OPENWEATHER_API_KEY s))] [] None.

Definition get_air_quality (lat lon : Q) : M json :=
  try_except
    (e <~ ask ;;
     data <~ send (air_quality_request (cfg e) lat lon) ;;
     liftR (air_quality_of_response data))
    (fun _ => fun e log => (fallback_air_quality (now_epoch e log), log)).

(** *** Carbon footprint *)

Definition default_vehicle_model : string := "7268a9b7-17e8-4c8d-acca-57059252afe9".

Definition _prepare_carbon_payload (activity_type : string) (activity_data : json)
  : result json :=
  if String.eqb activity_type "electricity" then
    value <- py_get activity_data "kwh" (JInt 0) ;;
    country <- py_get activity_data "country" (JStr "us") ;;
    Ok (JObj [("type", JStr "electricity");
              ("electricity_unit", JStr "kwh");
              ("electricity_value", value);
              ("country", country)])
  else if String.eqb activity_type "vehicle" then
    unit <- py_get activity_data "distance_unit" (JStr "km") ;;
    distance <- py_get activity_data "distance" (JInt 0) ;;
    model <- py_get activity_data "vehicle_model_id" (JStr default_vehicle_model) ;;
    Ok (JObj [("type", JStr "vehicle");
              ("distance_unit", unit);
              ("distance_value", distance);
              ("vehicle_model_id", model)])
  else if String.eqb activity_type "flight" then
    passengers <- py_get activity_data "passengers" (JInt 1) ;;
    legs <- py_get activity_data "legs" (JArr []) ;;
    Ok (JObj [("type", JStr "flight");
              ("passengers", passengers);
              ("legs", legs)])
  else Raise (Exn ValueError ("Unsupported activity type: " ++ activity_type)).

Definition carbon_request (s : settings) (payload : json) : request :=
  Request "POST" (CARBON_INTERFACE_API_BASE s ++ "/estimates") []
    [("Authorization", "Bearer " ++ CARBON_INTERFACE_API_KEY s);
     ("Content-Type", "application/json")]
    (Some payload).

(** [data['data']['attributes'][k]] *)
Definition attribute (data : json) (k : string) : result json :=
  a <- path2 data "data" "attributes" ;; py_getitem a k.

(** The dict literal returned after [data = response.json()]. *)
Definition carbon_of_response (activity_type : string) (activity_data data : json)
  : result json :=
  kg <- attribute data "carbon_kg" ;;
  lb <- attribute data "carbon_lb" ;;
  mt <- attribute data "carbon_mt" ;;
  Ok (JObj [("carbon_kg", kg); ("carbon_lb", lb); ("carbon_mt", mt);
            ("activity_type", JStr activity_type);
            ("activity_data", activity_data)]).

Definition calculate_carbon_footprint (activity_type : string) (activity_data : json)
  : M json :=
  try_except
    (e <~ ask ;;
     payload <~ liftR (_prepare_carbon_payload activity_type activity_data) ;;
     data <~ send (carbon_request (cfg e) payload) ;;
     liftR (carbon_of_response activity_type activity_data data))
    on_error.

(** *** Heat map *)

(** The [bounds] argument, a dict with the four keys; [None] (or an empty
    dict) selects the default box. *)
Record bounds : Type := Bounds { north : Q; south : Q; east : Q; west : Q }.

Definition default_bounds : bounds := Bounds 85 (-85) 180 (-180).

Definition bounds_json (b : bounds) : json :=
  JObj [("north", JFloat (north b)); ("south", JFloat (south b));
        ("east", JFloat (east b)); ("west", JFloat (west b))].

(** [west <= lon <= east and south <= lat <= north], evaluated left to right
    and stopping at the first comparison that is false. *)
Definition in_bounds (b : bounds) (lon lat : json) : result bool :=
  c1 <- num_le_py (west b) lon ;;
  if negb c1 then Ok false else
  c2 <- py_le_num lon (east b) ;;
  if negb c2 then Ok false else
  c3 <- num_le_py (south b) lat ;;
  if negb c3 then Ok false else
  py_le_num lat (north b).

(** [g in ['co2e_100yr', 'co2e']] *)
Definition canonical_gas (g : json) : bool :=
  is_str "co2e_100yr" g || is_str "co2e" g.

(** The inner [for emission in source['EmissionsSummary']] loop, with its
    [break]; [emissions] is the value held before the loop. *)
Fixpoint scan_summary (entries : list json) (emissions : json) : result json :=
  match entries with
  | [] => Ok emissions
  | emission :: rest =>
      g <- py_get emission "Gas" JNull ;;
      if canonical_gas g then py_get emission "EmissionsQuantity" (JInt 0)
      else scan_summary rest emissions
  end.

Definition source_emissions (source : json) : result json :=
  has <- py_contains "EmissionsSummary" source ;;
  if has then
    summary <- py_getitem source "EmissionsSummary" ;;
    entries <- py_iter summary ;;
    scan_summary entries (JInt 0)
  else Ok (JInt 0).

(** One iteration of [for source in assets]: the point appended to
    [heat_map_points], or [None] when the record is passed over. *)
Definition heat_map_point (b : bounds) (source : json) : result (option json) :=
  has_centroid <- py_contains "Centroid" source ;;
  if negb has_centroid then Ok None else
  centroid <- py_getitem source "Centroid" ;;
  has_geometry <- py_contains "Geometry" centroid ;;
  if negb has_geometry then Ok None else
  coords <- path2 source "Centroid" "Geometry" ;;
  n <- py_len coords ;;
  if (n <? 2)%nat then Ok None else
  lon <- py_getitem_idx coords 0 ;;
  lat <- py_getitem_idx coords 1 ;;
  inside <- in_bounds b lon lat ;;
  if negb inside then Ok None else
  emissions <- source_emissions source ;;
  id <- py_get source "Id" JNull ;;
  name <- py_get source "Name" (JStr "Unknown") ;;
  country <- py_get source "Country" (JStr EmptyString) ;;
  sector <- py_get source "Sector" (JStr EmptyString) ;;
  Ok (Some (JObj [("lat", lat); ("lon", lon); ("intensity", emissions);
                  ("source_id", id); ("name", name);
                  ("country", country); ("sector", sector)])).

Fixpoint heat_map_loop (b : bounds) (assets : list json) (heat_map_points : list json)
  : result (list json) :=
  match assets with
  | [] => Ok heat_map_points
  | source :: rest =>
      p <- heat_map_point b source ;;
      heat_map_loop b rest
        (match p with
         | Some pt => (heat_map_points ++ [pt])%list
         | None => heat_map_points
         end)
  end.

(** [sources_data.get('assets', []) if isinstance(sources_data, dict)
     else sources_data] *)
Definition assets_of (sources_data : json) : json :=
  match sources_data with
  | JObj m => dict_get m "assets" (JArr [])
  | _ => sources_data
  end.

Definition heat_map_points_of (b : bounds) (assets : json) : result (list json) :=
  match assets with
  | JArr l => heat_map_loop b l []
  | _ => Ok []
  end.

(** [[sector] if sector else None] *)
Definition sector_filter (sector : option string) : option (list string) :=
  match sector with
  | Some s => if String.eqb s EmptyString then None else Some [s]
  | None => None
  end.

Definition opt_str (s : option string) : json :=
  match s with Some x => JStr x | None => JNull end.

Definition get_emissions_heat_map_data (bounds_arg : option bounds) (year : Z)
    (sector : option string) : M json :=
  try_except
    (let b := match bounds_arg with Some b => b | None => default_bounds end in
     sources_data <~
       liftM (ClimateTraceAPI.search_emissions_sources 1000 year 0
                None (sector_filter sector) None None None None) ;;
     is_error <~ liftR (py_contains "error" sources_data) ;;
     if is_error then retE sources_data else
     heat_map_points <~ liftR (heat_map_points_of b (assets_of sources_data)) ;;
     retE (JObj [("points", JArr heat_map_points);
                 ("bounds", bounds_json b);
                 ("year", JInt year);
                 ("sector", opt_str sector);
                 ("total_sources", JInt (Z.of_nat (List.length heat_map_points)))]))
    on_error.

(** *** Global overview *)

Definition top_countries : list string :=
  ["CHN"; "USA"; "IND"; "JPN"; "RUS"; "DEU"; "KOR"; "IRN"; "SAU"; "GBR"].

(** [for country_data in country_emissions], threading [total_emissions] and
    [country_rankings]. *)
Fixpoint overview_loop (fadd : Q -> Q -> result Q) (records : list json)
    (total_emissions : json) (country_rankings : list json)
  : result (json * list json) :=
  match records with
  | [] => Ok (total_emissions, country_rankings)
  | country_data :: rest =>
      has <- py_contains "emissions" country_data ;;
      if has then
        emissions <- py_getitem country_data "emissions" ;;
        emissions_value <- py_get emissions "co2e_100yr" (JInt 0) ;;
        total <- py_add fadd total_emissions emissions_value ;;
        country <- py_get country_data "country" JNull ;;
        rank <- py_get country_data "rank" (JInt 0) ;;
        overview_loop fadd rest total
          (country_rankings ++
             [JObj [("country", country); ("emissions", emissions_value);
                    ("rank", rank)]])%list
      else overview_loop fadd rest total_emissions country_rankings
  end.

(** The sort key [lambda x: x['emissions']], as a number.  Every entry of
    [country_rankings] went through [py_add], so its value is a number;
    the default is never used. *)
Definition emissions_key (x : json) : Q :=
  match x with
  | JObj m =>
      match lookup "emissions" m with
      | Some v => match as_number v with Some q => q | None => 0 end
      | None => 0
      end
  | _ => 0
  end.

(** [list.sort(key=..., reverse=True)]: a stable sort into descending key
    order (entries with equal keys keep their relative order). *)
Fixpoint insert_desc (key : json -> Q) (x : json) (l : list json) : list json :=
  match l with
  | [] => [x]
  | y :: l' =>
      if Qle_bool (key y) (key x) then x :: y :: l'
      else y :: insert_desc key x l'
  end.

Fixpoint sort_desc (key : json -> Q) (l : list json) : list json :=
  match l with
  | [] => []
  | x :: l' => insert_desc key x (sort_desc key l')
  end.

Definition rank_countries (fadd : Q -> Q -> result Q) (country_emissions : json)
  : result (json * list json) :=
  match country_emissions with
  | JArr l => overview_loop fadd l (JInt 0) []
  | _ => Ok (JInt 0, [])
  end.

Definition get_global_emissions_overview (year : Z) : M json :=
  try_except
    (country_emissions <~
       liftM (ClimateTraceAPI.get_country_emissions year year
                (Some ["power"]) None None None (Some top_countries)) ;;
     is_error <~ liftR (py_contains "error" country_emissions) ;;
     if is_error then retE country_emissions else
     sectors <~ liftM ClimateTraceAPI.get_sectors ;;
     e <~ ask ;;
     tr <~ liftR (rank_countries (float_add e) country_emissions) ;;
     let total_emissions := fst tr in
     let country_rankings := sort_desc emissions_key (snd tr) in
     last_updated <~ datetime_now_isoformat ;;
     retE (JObj [("year", JInt year);
                 ("total_global_emissions", total_emissions);
                 ("top_countries", JArr (firstn 10 country_rankings));
                 ("available_sectors", sectors);
                 ("data_sources",
                  JArr [JStr "Climate TRACE"; JStr "World Bank"; JStr "UN SDG"]);
                 ("last_updated", JStr last_updated)]))
    on_error.

(** *** NASA POWER and renewable potential *)

(** [data[k1][k2][k3]] *)
Definition path3 (data : json) (k1 k2 k3 : string) : result json :=
  v <- path2 data k1 k2 ;; py_getitem v k3.

Definition nasa_request (cx : context) (lat lon : json) (start_date end_date : string)
  : request :=
  Request "GET" (NASA_API_BASE cx ++ "/daily/point")
    [("parameters", JStr "ALLSKY_SFC_SW_DWN,T2M,WS10M");
     ("community", JStr "RE");
     ("longitude", lon);
     ("latitude", lat);
     ("start", JStr start_date);
     ("end", JStr end_date);
     ("format", JStr "JSON");
     ("api_key", JStr (NASA_API_KEY cx))] [] None.

Definition nasa_of_response (data : json) : result json :=
  solar <- path3 data "properties" "parameter" "ALLSKY_SFC_SW_DWN" ;;
  temperature <- path3 data "properties" "parameter" "T2M" ;;
  wind <- path3 data "properties" "parameter" "WS10M" ;;
  c1 <- path2 data "geometry" "coordinates" ;;
  lat <- py_getitem_idx c1 1 ;;
  c0 <- path2 data "geometry" "coordinates" ;;
  lon <- py_getitem_idx c0 0 ;;
  Ok (JObj [("solar_irradiance", solar);
            ("temperature", temperature);
            ("wind_speed", wind);
            ("location", JObj [("lat", lat); ("lon", lon)])]).

(** [lat] and [lon] are whatever the caller holds: the renewable-potential
    handler passes the values of the weather mapping on. *)
Definition get_nasa_power_data (cx : context) (lat lon : json)
    (start_date end_date : string) : M json :=
  try_except
    (data <~ send (nasa_request cx lat lon start_date end_date) ;;
     liftR (nasa_of_response data))
    on_error.

Definition _generate_renewable_recommendations (solar_potential wind_potential : string)
  : list string :=
  let recommendations :=
    ((if String.eqb solar_potential "High" then
        ["Excellent location for solar panels - consider rooftop solar installation";
         "Solar water heating would be very effective in this location"]
      else if String.eqb solar_potential "Medium" then
        ["Good solar potential - solar panels would be moderately effective"]
      else [])
     ++
     (if String.eqb wind_potential "High" then
        ["Strong wind resources - consider small wind turbines if permitted"]
      else if String.eqb wind_potential "Medium" then
        ["Moderate wind potential - small wind systems might be viable"]
      else []))%list in
  match recommendations with
  | [] => ["Consider energy efficiency improvements as primary focus";
           "Look into community renewable energy programs"]
  | _ => recommendations
  end.

(** [sum(values) / len(values) if values else 0] *)
Definition average (cx : context) (values : list json) : result json :=
  match values with
  | [] => Ok (JInt 0)
  | _ =>
      total <- py_sum (float_sum cx) values ;;
      match as_number total with
      | Some t =>
          q <- float_div cx t (Z.of_nat (List.length values)) ;;
          Ok (JFloat q)
      | None => Raise (Exn TypeError "unsupported operand type(s) for /")
      end
  end.

(** ["High" if avg > high else "Medium" if avg > medium else "Low"] *)
Definition potential (avg : json) (high medium : Q) : result string :=
  is_high <- py_gt_num avg high ;;
  if is_high then Ok "High" else
  is_medium <- py_gt_num avg medium ;;
  if is_medium then Ok "Medium" else Ok "Low".

(** [round(avg, 2)]: an int stays as it is. *)
Definition py_round2 (cx : context) (avg : json) : json :=
  match avg with
  | JFloat q => JFloat (round2 cx q)
  | _ => avg
  end.

(** What follows the two [if 'error' in ...] tests of
    [get_renewable_energy_potential]. *)
Definition renewable_of_nasa (cx : context) (location : string) (nasa_data : json)
  : result json :=
  solar <- py_getitem nasa_data "solar_irradiance" ;;
  solar_values <- py_values solar ;;
  wind <- py_getitem nasa_data "wind_speed" ;;
  wind_values <- py_values wind ;;
  avg_solar <- average cx solar_values ;;
  avg_wind <- average cx wind_values ;;
  solar_potential <- potential avg_solar 5 3 ;;
  wind_potential <- potential avg_wind 6 3 ;;
  Ok (JObj [("location", JStr location);
            ("solar_potential", JStr solar_potential);
            ("wind_potential", JStr wind_potential);
            ("avg_solar_irradiance", py_round2 cx avg_solar);
            ("avg_wind_speed", py_round2 cx avg_wind);
            ("recommendations",
             JArr (map JStr (_generate_renewable_recommendations
                               solar_potential wind_potential)))]).

Definition today (cx : context) : E string :=
  fun _ log => (Ok (today_ymd cx log), log).

Definition days_ago (cx : context) (n : Z) : E string :=
  fun _ log => (Ok (days_ago_ymd cx n log), log).

Definition get_renewable_energy_potential (cx : context) (location : string) : M json :=
  try_except
    (weather_data <~ liftM (get_weather_data location) ;;
     weather_failed <~ liftR (py_contains "error" weather_data) ;;
     if weather_failed then retE weather_data else
     lat <~ liftR (path2 weather_data "coordinates" "lat") ;;
     lon <~ liftR (path2 weather_data "coordinates" "lon") ;;
     end_date <~ today cx ;;
     start_date <~ days_ago cx 30 ;;
     nasa_data <~ liftM (get_nasa_power_data cx lat lon start_date end_date) ;;
     nasa_failed <~ liftR (py_contains "error" nasa_data) ;;
     if nasa_failed then retE nasa_data else
     liftR (renewable_of_nasa cx location nasa_data))
    on_error.

(** *** Climate TRACE sample data *)

(** [s or dflt] for an optional string. *)
Definition str_or (s : option string) (dflt : string) : string :=
  match s with
  | Some x => if String.eqb x EmptyString then dflt else x
  | None => dflt
  end.

Definition get_climate_trace_data (country sector : option string) : M json :=
  try_except
    (retE (JObj [("country", JStr (str_or country "global"));
                 ("sector", JStr (str_or sector "all"));
                 ("total_emissions_mt", JInt 50000000);
                 ("year", JInt 2023);
                 ("note", JStr "This is sample data. Real Climate TRACE integration requires proper API access.")]))
    on_error.

(** *** World Bank indicators *)

Definition world_bank_request (cx : context) (country_code indicator : string)
  : request :=
  Request "GET"
    (WORLD_BANK_API_BASE cx ++ "/country/" ++ country_code ++ "/indicator/" ++ indicator)
    [("format", JStr "json"); ("date", JStr "2020:2023"); ("per_page", JInt 100)]
    [] None.

Definition no_data : json := JObj [("error", JStr "No data available")].

(** The list comprehension over [data[1]]: the filter is evaluated first,
    then the two items of the dict literal. *)
Fixpoint world_bank_rows (items : list json) : result (list json) :=
  match items with
  | [] => Ok []
  | item :: rest =>
      v <- py_getitem item "value" ;;
      if is_none v then world_bank_rows rest
      else
        year <- py_getitem item "date" ;;
        value <- py_getitem item "value" ;;
        others <- world_bank_rows rest ;;
        Ok (JObj [("year", year); ("value", value)] :: others)
  end.

(** [data[1][0][k]['value']] *)
Definition first_row_value (data : json) (k : string) : result json :=
  rows <- py_getitem_idx data 1 ;;
  first <- py_getitem_idx rows 0 ;;
  path2 first k "value".

Definition world_bank_of_response (data : json) : result json :=
  n <- py_len data ;;
  if (1 <? n)%nat then
    rows <- py_getitem_idx data 1 ;;
    if py_truthy rows then
      country <- first_row_value data "country" ;;
      indicator <- first_row_value data "indicator" ;;
      rows' <- py_getitem_idx data 1 ;;
      items <- py_iter rows' ;;
      kept <- world_bank_rows items ;;
      Ok (JObj [("country", country); ("indicator", indicator); ("data", JArr kept)])
    else Ok no_data
  else Ok no_data.

Definition get_world_bank_climate_data (cx : context) (country_code indicator : string)
  : M json :=
  try_except
    (data <~ send (world_bank_request cx country_code indicator) ;;
     liftR (world_bank_of_response data))
    on_error.

Definition climate_indicators : list string :=
  ["EN.ATM.CO2E.PC"; "EG.USE.ELEC.KH.PC"; "AG.LND.FRST.ZS"; "EN.ATM.METH.KT.CE";
   "EG.ELC.RNEW.ZS"].

(** [for indicator in climate_indicators], threading [indicators_data]. *)
Fixpoint sdg_loop (cx : context) (country_code : string) (indicators : list string)
    (indicators_data : list (string * json)) : E (list (string * json)) :=
  match indicators with
  | [] => retE indicators_data
  | indicator :: rest =>
      data <~ liftM (get_world_bank_climate_data cx country_code indicator) ;;
      failed <~ liftR (py_contains "error" data) ;;
      sdg_loop cx country_code rest
        (if failed then indicators_data else dict_set indicators_data indicator data)
  end.

Definition get_un_sdg_indicators (cx : context) (country_code : string) : M json :=
  try_except
    (indicators_data <~ sdg_loop cx country_code climate_indicators [] ;;
     timestamp <~ datetime_now_isoformat ;;
     retE (JObj [("country", JStr country_code);
                 ("indicators", JObj indicators_data);
                 ("timestamp", JStr timestamp)]))
    on_error.

(** *** Composite views *)

Definition get_location_climate_profile (cx : context) (lat lon : Q) : M json :=
  try_except
    (e <~ ask ;;
     let location_name := str_float e lat ++ "," ++ str_float e lon in
     weather <~ liftM (get_weather_data location_name) ;;
     air_quality <~ liftM (get_air_quality lat lon) ;;
     renewable_potential <~ liftM (get_renewable_energy_potential cx location_name) ;;
     emissions_data <~ liftM (ClimateTraceAPI.get_emissions_by_location lat lon 50) ;;
     admin_areas <~
       liftM (ClimateTraceAPI.search_administrative_areas 5 0
                (Some [lon; lat]) None None None) ;;
     timestamp <~ datetime_now_isoformat ;;
     retE (JObj [("location", JObj [("lat", JFloat lat); ("lon", JFloat lon)]);
                 ("weather", weather);
                 ("air_quality", air_quality);
                 ("renewable_potential", renewable_potential);
                 ("nearby_emissions", emissions_data);
                 ("administrative_areas", admin_areas);
                 ("timestamp", JStr timestamp)]))
    on_error.

Definition get_sector_analysis (sector : string) (year : Z) : M json :=
  try_except
    (sector_emissions <~
       liftM (ClimateTraceAPI.get_asset_emissions (Some [year]) None None
                (Some [sector]) None None None None) ;;
     country_emissions <~
       liftM (ClimateTraceAPI.get_country_emissions year year (Some [sector])
                None None None None) ;;
     sources <~
       liftM (ClimateTraceAPI.search_emissions_sources 100 year 0 None
                (Some [sector]) None None None None) ;;
     timestamp <~ datetime_now_isoformat ;;
     retE (JObj [("sector", JStr sector);
                 ("year", JInt year);
                 ("sector_emissions", sector_emissions);
                 ("country_breakdown", country_emissions);
                 ("major_sources", sources);
                 ("analysis_timestamp", JStr timestamp)]))
    on_error.

End ClimateAPIHandler.

(* ================================================================== *)
(** ** Vocabulary of the properties                                   *)
(* ================================================================== *)

Module Spec.
Import Py Net ClimateAPIHandler.

(** The requests a computation adds to the log, and the value it returns. *)
Definition value {A} (c : M A) (e : env) (log : list request) : A := fst (c e log).
Definition log_after {A} (c : M A) (e : env) (log : list request) : list request :=
  snd (c e log).

(** What a single-request operation returns: the upstream's answer, or the
    error mapping of its failure. *)
Definition answer (e : env) (log : list request) (r : request) : json :=
  match upstream e log r with
  | Resp j => j
  | Fail x => error_dict x
  end.

Definition get_request (url : string) (params : list (string * json)) : request :=
  Request "GET" url params [] None.

(** [k in v] and [v[k]] for a value known to be a mapping. *)
Definition field (k : string) (v : json) : option json :=
  match v with JObj m => lookup k m | _ => None end.

Definition is_obj (v : json) : bool :=
  match v with JObj _ => true | _ => false end.

Definition is_number (v : json) : bool :=
  match as_number v with Some _ => true | None => false end.

(** A mapping that reports a failure: it has an ['error'] key. *)
Definition is_error (v : json) : bool :=
  match field "error" v with Some _ => true | None => false end.

(** *** Asset records *)

(** The two-element centroid geometry of a record, (lon, lat). *)
Definition centroid (source : json) : option (json * json) :=
  match field "Centroid" source with
  | Some c =>
      match field "Geometry" c with
      | Some (JArr (lon :: lat :: _)) => Some (lon, lat)
      | _ => None
      end
  | None => None
  end.

(** Interval containment on each axis. *)
Definition inside (b : bounds) (source : json) : bool :=
  match centroid source with
  | Some (lon, lat) =>
      match as_number lon, as_number lat with
      | Some x, Some y =>
          Qle_bool (west b) x && Qle_bool x (east b)
          && Qle_bool (south b) y && Qle_bool y (north b)
      | _, _ => false
      end
  | None => false
  end.

(** A record shaped as the upstream documents it: a mapping whose
    [Centroid], when present, is a mapping whose [Geometry], when present,
    is a list whose first two elements, when it has them, are numbers; and
    whose [EmissionsSummary], when present, is a list of mappings. *)
Definition well_formed_centroid (source : json) : bool :=
  is_obj source
  && match field "Centroid" source with
     | None => true
     | Some (JObj c) =>
         match lookup "Geometry" c with
         | None => true
         | Some (JArr (lon :: lat :: _)) => is_number lon && is_number lat
         | Some (JArr _) => true
         | Some _ => false
         end
     | Some _ => false
     end.

(** Values that have neither a membership test nor a length. *)
Definition scalar (v : json) : bool :=
  match v with
  | JNull | JBool _ | JInt _ | JFloat _ => true
  | _ => false
  end.

(** A record without a two-element centroid geometry: it has no [Centroid]
    key, or its [Centroid] is a mapping without a [Geometry] key, or the
    [Geometry] is a list of fewer than two elements. *)
Definition lacks_geometry (source : json) : bool :=
  match source with
  | JObj m =>
      match lookup "Centroid" m with
      | None => true
      | Some (JObj c) =>
          match lookup "Geometry" c with
          | None => true
          | Some (JArr l) => (List.length l <? 2)%nat
          | Some _ => false
          end
      | Some _ => false
      end
  | _ => false
  end.

(** A record whose [Centroid], or the [Geometry] in it, is present but is
    null, a number or a boolean. *)
Definition broken_geometry (source : json) : bool :=
  match source with
  | JObj m =>
      match lookup "Centroid" m with
      | None => false
      | Some (JObj c) =>
          match lookup "Geometry" c with
          | Some g => scalar g
          | None => false
          end
      | Some c => scalar c
      end
  | _ => false
  end.

Definition well_formed_summary (source : json) : bool :=
  match field "EmissionsSummary" source with
  | None => true
  | Some (JArr l) => forallb is_obj l
  | Some _ => false
  end.

Definition well_formed_asset (source : json) : bool :=
  well_formed_centroid source && well_formed_summary source.

(** The per-gas summary list of a record (empty when it has none). *)
Definition summary_entries (source : json) : list json :=
  match field "EmissionsSummary" source with
  | Some s => match py_iter s with Ok l => l | Raise _ => [] end
  | None => []
  end.

Definition entry_gas (entry : json) : json :=
  match entry with JObj m => dict_get m "Gas" JNull | _ => JNull end.

Definition entry_quantity (entry : json) : json :=
  match entry with JObj m => dict_get m "EmissionsQuantity" (JInt 0) | _ => JInt 0 end.

Definition quantity_of (found : option json) : json :=
  match found with Some entry => entry_quantity entry | None => JInt 0 end.

(** Selection in list order: the first entry whose gas code is either of
    the two canonical codes. *)
Definition first_canonical (entries : list json) : json :=
  quantity_of (find (fun entry => canonical_gas (entry_gas entry)) entries).

(** Selection with preference: the first [co2e_100yr] entry if there is
    one, otherwise the first [co2e] entry. *)
Definition preferred_canonical (entries : list json) : json :=
  match find (fun entry => is_str "co2e_100yr" (entry_gas entry)) entries with
  | Some entry => entry_quantity entry
  | None => quantity_of (find (fun entry => is_str "co2e" (entry_gas entry)) entries)
  end.

(** [source.get(k, dflt)] for a record. *)
Definition field_or (k : string) (dflt : json) (source : json) : json :=
  match field k source with Some v => v | None => dflt end.

(** The heat-map point of a record, if it has a centroid inside the box:
    its intensity is selected in list order. *)
Definition spec_point (b : bounds) (source : json) : option json :=
  if inside b source then
    match centroid source with
    | Some (lon, lat) =>
        Some (JObj [("lat", lat); ("lon", lon);
                    ("intensity", first_canonical (summary_entries source));
                    ("source_id", field_or "Id" JNull source);
                    ("name", field_or "Name" (JStr "Unknown") source);
                    ("country", field_or "Country" (JStr EmptyString) source);
                    ("sector", field_or "Sector" (JStr EmptyString) source)])
    | None => None
    end
  else None.

Definition points_of (b : bounds) (assets : list json) : list json :=
  flat_map (fun source =>
              match spec_point b source with Some p => [p] | None => [] end)
           assets.

(** The request [get_emissions_heat_map_data] sends. *)
Definition heat_map_request (s : settings) (year : Z) (sector : option string)
  : request :=
  get_request (CLIMATETRACE_API_BASE s ++ "/assets")
    (ClimateTraceAPI.assets_params 1000 year 0 None (sector_filter sector)
       None None None None).

(** A heat-map point whose coordinates lie in the box. *)
Definition point_in_box (b : bounds) (p : json) : Prop :=
  exists vlon vlat lon lat,
    field "lon" p = Some vlon /\ field "lat" p = Some vlat /\
    as_number vlon = Some lon /\ as_number vlat = Some lat /\
    (west b <= lon)%Q /\ (lon <= east b)%Q /\
    (south b <= lat)%Q /\ (lat <= north b)%Q.

Definition effective_bounds (bounds_arg : option bounds) : bounds :=
  match bounds_arg with Some b => b | None => default_bounds end.

(** The elements of a value when it is a list (what the handlers iterate
    over after their [isinstance(..., list)] test). *)
Definition records_of (v : json) : list json :=
  match v with JArr l => l | _ => [] end.

(** *** Country records *)










(** The requests [get_global_emissions_overview] sends. *)
Definition overview_request (s : settings) (year : Z) : request :=
  get_request (CLIMATETRACE_API_BASE s ++ "/country/emissions")
    (ClimateTraceAPI.country_params year year (Some ["power"]) None None None
       (Some top_countries)).

Definition sectors_request (s : settings) : request :=
  get_request (CLIMATETRACE_API_BASE s ++ "/definitions/sectors") [].

(** *** Weather *)

Definition weather_fields : list string :=
  ["location"; "country"; "temperature"; "humidity"; "pressure"; "weather";
   "wind_speed"; "coordinates"].

(** The fields of the fallback that come from the city table. *)
Definition city_fields (c : city) (r : json) : Prop :=
  field "country" r = Some (JStr (city_country c)) /\
  field "temperature" r = Some (JInt (city_temp c)) /\
  field "coordinates" r
  = Some (JObj [("lat", JFloat (city_lat c)); ("lon", JFloat (city_lon c))]).

(** *** Example records *)

Definition plant_a : json :=
  JObj [("Id", JInt 1); ("Name", JStr "Plant A"); ("Country", JStr "USA");
        ("Sector", JStr "power");
        ("Centroid", JObj [("Geometry", JArr [JFloat (-74.0); JFloat 40.7])]);
        ("EmissionsSummary",
         JArr [JObj [("Gas", JStr "co2"); ("EmissionsQuantity", JInt 90)];
               JObj [("Gas", JStr "co2e"); ("EmissionsQuantity", JInt 5)];
               JObj [("Gas", JStr "co2e_100yr"); ("EmissionsQuantity", JInt 7)]])].

Definition plant_b : json :=
  JObj [("Id", JInt 2);
        ("Centroid", JObj [("Geometry", JArr [JFloat 10; JFloat 89.5])])].

Definition plant_c : json := JObj [("Id", JInt 3); ("Name", JStr "Plant C")].

(** A record whose centroid is null. *)
Definition plant_d : json := JObj [("Id", JInt 4); ("Centroid", JNull)].

Definition assets_response : json :=
  JObj [("assets", JArr [plant_a; plant_b; plant_c])].

Definition point_a : json :=
  JObj [("lat", JFloat 40.7); ("lon", JFloat (-74.0)); ("intensity", JInt 5);
        ("source_id", JInt 1); ("name", JStr "Plant A");
        ("country", JStr "USA"); ("sector", JStr "power")].

Definition countries_response : list json :=
  [JObj [("country", JStr "USA"); ("rank", JInt 2);
         ("emissions", JObj [("co2e_100yr", JFloat 2.5)])];
   JObj [("country", JStr "CHN"); ("rank", JInt 1);
         ("emissions", JObj [("co2e_100yr", JInt 4)])];
   JObj [("country", JStr "IND")]].



(** *** Concrete surroundings for the examples *)

Definition example_settings : settings :=
  Settings "https://api.openweathermap.org/data/2.5" "owm-key"
           "https://www.carboninterface.com/api/v1" "ci-key"
           "https://api.climatetrace.org/v6".

(** An environment whose upstream gives the same outcome to every request;
    its strings are ASCII and its addition does not round. *)
Definition constant_env (o : outcome) : env :=
  Env example_settings (fun _ _ => o) (fun _ => "2024-01-01T00:00:00")
      (fun _ => 1704067200%Z) (fun _ => "0.0") lower title
      (fun x y => Ok (x + y)%Q).

Definition unreachable : outcome := Fail (Exn RequestException "connection refused").

(** *** Request parameters *)

(** The value a list-valued filter is sent with, if it is sent. *)
Definition joined (l : option (list string)) : option json :=
  match l with
  | Some (x :: r) => Some (JStr (join "," (x :: r)))
  | _ => None
  end.

(** The value [adminId] is sent with, if it is sent. *)
Definition nonzero (admin_id : option Z) : option json :=
  match admin_id with
  | Some z => if (z =? 0)%Z then None else Some (JInt z)
  | None => None
  end.

(** The only request a computation adds to the log. *)
Definition sends {A} (c : M A) (e : env) (log : list request) (r : request) : Prop :=
  log_after c e log = (log ++ [r])%list.

(** The sum of a list of numbers, without rounding. *)
Fixpoint exact_sum (values : list json) : result Q :=
  match values with
  | [] => Ok 0%Q
  | v :: rest =>
      match as_number v with
      | Some q => s <- exact_sum rest ;; Ok (q + s)%Q
      | None => Raise (Exn TypeError "unsupported operand type(s) for +")
      end
  end.

(** A context for the examples: its arithmetic does not round. *)
Definition example_context : context :=
  Context "https://power.larc.nasa.gov/api/temporal" "nasa-key"
          "https://api.worldbank.org/v2"
          (fun _ => "20240101") (fun _ _ => "20231202") (fun q => q)
          exact_sum (fun x n => Ok (x / inject_Z n)%Q).

(** A parameterless lookup: one GET to [base ++ path] without parameters,
    whose decoded body is returned as it is, a failure becoming the error
    mapping that carries its message. *)
Definition plain_lookup (f : M json) (path : string) : Prop :=
  forall e log,
    let r := get_request (CLIMATETRACE_API_BASE (cfg e) ++ path) [] in
    sends f e log r /\
    (forall body, upstream e log r = Resp body -> value f e log = body) /\
    (forall x, upstream e log r = Fail x ->
               value f e log = JObj [("error", JStr (exn_str x))]).

(** The value [years] is sent with, if it is sent. *)
Definition joined_years (years : option (list Z)) : option json :=
  match years with
  | Some (y :: r) => Some (JStr (join "," (map str_int (y :: r))))
  | _ => None
  end.

(** The value [gas] is sent with, if it is sent. *)
Definition nonempty (gas : option string) : option json :=
  match gas with
  | Some g => if String.eqb g EmptyString then None else Some (JStr g)
  | None => None
  end.

(** *** Renewable potential *)

Definition generic_recommendations : list string :=
  ["Consider energy efficiency improvements as primary focus";
   "Look into community renewable energy programs"].

(** What an operation that decodes the body of its single request returns:
    the decoded mapping, or the error mapping of the failure of the request
    or of the decoding. *)
Definition decoded (post : json -> result json) (e : env) (log : list request)
    (r : request) : json :=
  match upstream e log r with
  | Resp data =>
      match post data with
      | Ok v => v
      | Raise x => error_dict x
      end
  | Fail x => error_dict x
  end.

(** The row kept for a World Bank item. *)
Definition row_of (item : json) : json :=
  JObj [("year", field_or "date" JNull item); ("value", field_or "value" JNull item)].

Definition has_value (item : json) : bool :=
  match field "value" item with
  | Some v => negb (is_none v)
  | None => false
  end.

(** A World Bank item as documented: a mapping with a date and a value
    (which may be null). *)
Definition well_formed_item (item : json) : bool :=
  match field "date" item, field "value" item with
  | Some _, Some _ => true
  | _, _ => false
  end.

End Spec.

(* ================================================================== *)
(** ** Properties of the Climate TRACE client                         *)
(* ================================================================== *)

Module TraceFacts.
Import Py Net ClimateTraceAPI Spec.

Ltac run :=
  unfold value, log_after, try_except, bindE, liftR, liftM, retE, retM,
    ask, base_url, datetime_now_isoformat, session_get, send, on_error;
  cbn [fst snd].

Lemma search_emissions_sources_run limit year offset c s ss co g a e log :
  let r := get_request (CLIMATETRACE_API_BASE (cfg e) ++ "/assets")
             (assets_params limit year offset c s ss co g a) in
  search_emissions_sources limit year offset c s ss co g a e log
  = (answer e log r, (log ++ [r])%list).
Proof.
  unfold search_emissions_sources, answer, get_request. run.
  destruct (upstream e log _); reflexivity.
Qed.

Lemma get_country_emissions_run since to s ss co g c e log :
  let r := get_request (CLIMATETRACE_API_BASE (cfg e) ++ "/country/emissions")
             (country_params since to s ss co g c) in
  get_country_emissions since to s ss co g c e log
  = (answer e log r, (log ++ [r])%list).
Proof.
  unfold get_country_emissions, answer, get_request. run.
  destruct (upstream e log _); reflexivity.
Qed.

Lemma search_administrative_areas_run limit offset pt bbox name level e log :
  let r := get_request (CLIMATETRACE_API_BASE (cfg e) ++ "/admins/search")
             (admin_params (str_float e) limit offset pt bbox name level) in
  search_administrative_areas limit offset pt bbox name level e log
  = (answer e log r, (log ++ [r])%list).
Proof.
  unfold search_administrative_areas, answer, get_request. run.
  destruct (upstream e log _); reflexivity.
Qed.

Lemma get_sectors_run e log :
  let r := get_request (CLIMATETRACE_API_BASE (cfg e) ++ "/definitions/sectors") [] in
  get_sectors e log = (answer e log r, (log ++ [r])%list).
Proof.
  unfold get_sectors, answer, get_request. run.
  destruct (upstream e log _); reflexivity.
Qed.

Lemma clamp_range (y : Z) : 2000 <= Z.max 2000 (Z.min y 2050) <= 2050.
Proof. lia. Qed.

Lemma clamp_monotone (a b : Z) :
  a <= b -> Z.max 2000 (Z.min a 2050) <= Z.max 2000 (Z.min b 2050).
Proof. lia. Qed.

(** C2, as the code has it: [get_country_emissions] issues one request whose
    [since] and [to] parameters both lie in [2000, 2050]; each year is
    clamped on its own, so the transmitted [since] does not exceed the
    transmitted [to] whenever the caller's [since] does not exceed the
    caller's [to]. *)
Theorem country_emissions_years_clamped
    (since to : Z) (sector subsector continents groups countries : option (list string))
    (e : env) (log : list request) :
  exists r s t,
    log_after (get_country_emissions since to sector subsector continents groups countries)
      e log = (log ++ [r])%list /\
    lookup "since" (req_params r) = Some (JInt s) /\
    lookup "to" (req_params r) = Some (JInt t) /\
    2000 <= s <= 2050 /\ 2000 <= t <= 2050 /\
    (since <= to -> s <= t).
Proof.
  unfold log_after. rewrite get_country_emissions_run. cbn [snd].
  eexists. exists (Z.max 2000 (Z.min since 2050)), (Z.max 2000 (Z.min to 2050)).
  split; [reflexivity|].
  split; [reflexivity|].
  split; [reflexivity|].
  split; [apply clamp_range|].
  split; [apply clamp_range|].
  apply clamp_monotone.
Qed.

Lemma country_emissions_years_clamped_witness :
  exists r s t,
    log_after (get_country_emissions 2010 2020 None None None None None)
      (constant_env unreachable) [] = [r] /\
    lookup "since" (req_params r) = Some (JInt s) /\
    lookup "to" (req_params r) = Some (JInt t) /\
    2000 <= s <= 2050 /\ 2000 <= t <= 2050 /\ s <= t.
Proof.
  destruct (country_emissions_years_clamped 2010 2020 None None None None None
              (constant_env unreachable) [])
    as (r & s & t & Hlog & Hs & Ht & Rs & Rt & Hle).
  exists r, s, t. repeat split; try assumption; try apply Rs; try apply Rt.
  apply Hle. lia.
Defined.

(** C2, as stated, fails when the inputs lie at opposite extremes: with
    [since = 2051] and [to = 1999] the request carries [since = 2050] and
    [to = 2000]. *)
Lemma country_emissions_years_collide :
  exists r,
    log_after (get_country_emissions 2051 1999 None None None None None)
      (constant_env unreachable) [] = [r] /\
    lookup "since" (req_params r) = Some (JInt 2050) /\
    lookup "to" (req_params r) = Some (JInt 2000) /\
    ~ (2050 <= 2000).
Proof.
  eexists. split; [reflexivity|].
  split; [reflexivity|]. split; [reflexivity|]. lia.
Qed.

(** C5: a source id outside [1, 5000000] yields the validation error mapping
    and leaves the request log untouched; an id inside the range issues one
    GET to [/assets/{source_id}]. *)
Theorem source_details_validated (source_id : Z) (e : env) (log : list request) :
  (source_id < 1 \/ 5000000 < source_id ->
   get_source_details source_id e log
   = (JObj [("error", JStr "Source ID must be between 1 and 5,000,000")], log)) /\
  (1 <= source_id <= 5000000 ->
   log_after (get_source_details source_id) e log
   = (log ++ [get_request (CLIMATETRACE_API_BASE (cfg e) ++ "/assets/"
                           ++ str_int source_id) []])%list).
Proof.
  unfold get_source_details, get_request. split; intro H.
  - assert (Hc : ((1 <=? source_id) && (source_id <=? 5000000))%Z = false).
    { apply andb_false_iff. destruct H; [left | right]; lia. }
    run. rewrite Hc. reflexivity.
  - assert (Hc : ((1 <=? source_id) && (source_id <=? 5000000))%Z = true).
    { apply andb_true_iff. split; lia. }
    run. rewrite Hc. cbn [negb].
    destruct (upstream e log _); reflexivity.
Qed.

Lemma source_details_validated_witness :
  get_source_details 0 (constant_env unreachable) []
  = (JObj [("error", JStr "Source ID must be between 1 and 5,000,000")], []) /\
  get_source_details 5000001 (constant_env unreachable) []
  = (JObj [("error", JStr "Source ID must be between 1 and 5,000,000")], []) /\
  log_after (get_source_details 42) (constant_env unreachable) []
  = [get_request "https://api.climatetrace.org/v6/assets/42" []].
Proof.
  split; [| split].
  - apply (proj1 (source_details_validated 0 (constant_env unreachable) [])). lia.
  - apply (proj1 (source_details_validated 5000001 (constant_env unreachable) [])). lia.
  - apply (proj2 (source_details_validated 42 (constant_env unreachable) [])). lia.
Defined.

Lemma divisor_zero (lat : Q) : Qeq_bool (111 * Qabs lat) 0 = true <-> lat == 0.
Proof.
  rewrite Qeq_bool_iff. split; intro H.
  - apply Qmult_integral in H. destruct H as [H | H]; [discriminate H|].
    revert H. apply Qabs_case; intros; lra.
  - rewrite H. reflexivity.
Qed.

Lemma lat_offset_defined (r : Q) : py_div r 111 = Ok (r / 111)%Q.
Proof. reflexivity. Qed.

(** C8: at latitude 0 the longitude offset divides by [111.0 * abs(lat) = 0];
    the [ZeroDivisionError] is caught, the call returns the error mapping and
    no request is issued.  At any other latitude the division succeeds, both
    lookups are issued and the composite mapping, which has no ['error'] key,
    is returned. *)
Theorem emissions_by_location_equator
    (lat lon : Q) (radius_km : Z) (e : env) (log : list request) :
  (lat == 0 ->
   py_div (inject_Z radius_km) (111 * Qabs lat)
   = Raise (Exn ZeroDivisionError "float division by zero") /\
   get_emissions_by_location lat lon radius_km e log
   = (JObj [("error", JStr "float division by zero")], log)) /\
  (~ lat == 0 ->
   (exists lon_offset, py_div (inject_Z radius_km) (111 * Qabs lat) = Ok lon_offset) /\
   is_error (value (get_emissions_by_location lat lon radius_km) e log) = false /\
   exists r1 r2,
     log_after (get_emissions_by_location lat lon radius_km) e log
     = (log ++ [r1; r2])%list).
Proof.
  split; intro H.
  - assert (Hz : Qeq_bool (111 * Qabs lat) 0 = true) by (apply divisor_zero; exact H).
    unfold get_emissions_by_location, py_div. rewrite Hz.
    split; [reflexivity|]. run. reflexivity.
  - assert (Hz : Qeq_bool (111 * Qabs lat) 0 = false).
    { destruct (Qeq_bool (111 * Qabs lat) 0) eqn:E; [|reflexivity].
      apply divisor_zero in E. contradiction. }
    unfold get_emissions_by_location. rewrite lat_offset_defined.
    unfold py_div. rewrite Hz.
    split; [eexists; reflexivity|].
    run. rewrite search_administrative_areas_run. cbn zeta.
    rewrite search_emissions_sources_run. cbn zeta. cbn [fst snd].
    split; [reflexivity|].
    do 2 eexists. rewrite <- app_assoc. reflexivity.
Qed.

Lemma emissions_by_location_equator_witness :
  get_emissions_by_location 0 (-74.0060) 50 (constant_env unreachable) []
  = (JObj [("error", JStr "float division by zero")], []) /\
  is_error (value (get_emissions_by_location 40.7128 (-74.0060) 50)
              (constant_env unreachable) []) = false.
Proof.
  split.
  - apply (proj1 (emissions_by_location_equator 0 (-74.0060) 50
                    (constant_env unreachable) [])). reflexivity.
  - apply (proj2 (emissions_by_location_equator 40.7128 (-74.0060) 50
                    (constant_env unreachable) [])).
    intro H. discriminate H.
Defined.

(** *** Request parameters *)

Lemma lookup_app (k : string) (a b : list (string * json)) :
  lookup k (a ++ b)
  = match lookup k a with Some v => Some v | None => lookup k b end.
Proof.
  induction a as [| [k' v] a IH]; cbn [app lookup]; [reflexivity|].
  destruct (String.eqb k k'); [reflexivity | exact IH].
Qed.

Lemma lookup_list_param (k name : string) (l : option (list string)) :
  lookup k (list_param name l) = if String.eqb k name then joined l else None.
Proof.
  unfold list_param, joined. destruct l as [[| x r] |]; cbn [lookup];
    destruct (String.eqb k name); reflexivity.
Qed.

Lemma lookup_admin_param (k : string) (a : option Z) :
  lookup k (admin_param a) = if String.eqb k "adminId" then nonzero a else None.
Proof.
  unfold admin_param, nonzero. destruct a as [z |]; [destruct (z =? 0)%Z |];
    cbn [lookup]; destruct (String.eqb k "adminId"); reflexivity.
Qed.

Ltac lookup_params :=
  repeat (rewrite lookup_app || rewrite lookup_list_param || rewrite lookup_admin_param);
  cbn [lookup String.eqb Ascii.eqb Bool.eqb].

(** Asset search sends one request to [/assets] in which every filter sits
    under its own key: a list filter is present exactly when the list is
    given and non-empty, joined with commas; [adminId] exactly when the id
    is given and not 0; [year] and [offset] always, as given. *)
Theorem asset_search_filters (limit year offset : Z)
    (countries sectors subsectors continents groups : option (list string))
    (admin_id : option Z) (e : env) (log : list request) :
  exists r,
    sends (search_emissions_sources limit year offset countries sectors subsectors
             continents groups admin_id) e log r /\
    req_url r = CLIMATETRACE_API_BASE (cfg e) ++ "/assets" /\
    lookup "year" (req_params r) = Some (JInt year) /\
    lookup "offset" (req_params r) = Some (JInt offset) /\
    lookup "countries" (req_params r) = joined countries /\
    lookup "sectors" (req_params r) = joined sectors /\
    lookup "subsectors" (req_params r) = joined subsectors /\
    lookup "continents" (req_params r) = joined continents /\
    lookup "groups" (req_params r) = joined groups /\
    lookup "adminId" (req_params r) = nonzero admin_id.
Proof.
  eexists. split.
  - unfold sends, log_after. rewrite search_emissions_sources_run. reflexivity.
  - cbn [req_url req_params get_request]. unfold assets_params.
    repeat split; lookup_params; try reflexivity;
      repeat match goal with
        | |- context [joined ?l] => destruct (joined l)
        end; reflexivity.
Qed.

(** The transmitted [limit] of asset search and of administrative-area
    search is the caller's limit capped at 1000: never above 1000, exactly
    1000 for a limit of 1000 or more, the caller's own value below that
    (negative values included). *)
Theorem search_limit_capped (limit year offset : Z)
    (countries sectors subsectors continents groups : option (list string))
    (admin_id : option Z) (point bbox : option (list Q)) (name : option string)
    (level : option Z) (e : env) (log : list request) :
  exists r1 r2 n,
    sends (search_emissions_sources limit year offset countries sectors subsectors
             continents groups admin_id) e log r1 /\
    sends (search_administrative_areas limit offset point bbox name level) e log r2 /\
    lookup "limit" (req_params r1) = Some (JInt n) /\
    lookup "limit" (req_params r2) = Some (JInt n) /\
    n <= 1000 /\
    (1000 <= limit -> n = 1000) /\
    (limit <= 1000 -> n = limit).
Proof.
  do 2 eexists. exists (Z.min limit 1000). split; [| split].
  - unfold sends, log_after. rewrite search_emissions_sources_run. reflexivity.
  - unfold sends, log_after. rewrite search_administrative_areas_run. reflexivity.
  - repeat split; try reflexivity; lia.
Qed.

Lemma search_limit_capped_witness :
  exists r1 r2,
    sends (search_emissions_sources 5000 2022 0 None None None None None None)
      (constant_env unreachable) [] r1 /\
    sends (search_administrative_areas 5000 0 None None None None)
      (constant_env unreachable) [] r2 /\
    lookup "limit" (req_params r1) = Some (JInt 1000) /\
    lookup "limit" (req_params r2) = Some (JInt 1000).
Proof.
  destruct (search_limit_capped 5000 2022 0 None None None None None None
              None None None None (constant_env unreachable) [])
    as (r1 & r2 & n & H1 & H2 & L1 & L2 & _ & Hbig & _).
  exists r1, r2. rewrite (Hbig ltac:(lia)) in L1, L2. repeat split; assumption.
Defined.

(** *** Administrative-area search *)

Lemma substring_length (n : nat) (s : string) :
  String.length (substring 0 n s) = Nat.min n (String.length s).
Proof.
  revert s. induction n as [| n IH]; intro s; destruct s as [| c s];
    cbn [substring String.length Nat.min]; try reflexivity.
  rewrite IH. reflexivity.
Qed.

Lemma substring_prefix (n : nat) (s : string) : prefix (substring 0 n s) s = true.
Proof.
  revert s. induction n as [| n IH]; intro s; destruct s as [| c s];
    cbn [substring prefix]; try reflexivity.
  destruct (ascii_dec c c) as [_ | H]; [apply IH | contradiction].
Qed.

Lemma substring_whole (n : nat) (s : string) :
  (String.length s <= n)%nat -> substring 0 n s = s.
Proof.
  revert s. induction n as [| n IH]; intro s; destruct s as [| c s];
    cbn [substring String.length]; intro H; try reflexivity.
  - lia.
  - rewrite IH; [reflexivity | lia].
Qed.

Lemma lookup_point_param (k : string) (str : Q -> string) (point : option (list Q)) :
  k <> "point" -> lookup k (point_param str point) = None.
Proof.
  intro H. apply String.eqb_neq in H. unfold point_param.
  destruct point as [[| x [| y [| z l]]] |]; cbn [lookup]; try reflexivity.
  rewrite H. reflexivity.
Qed.

Lemma lookup_bbox_param (k : string) (str : Q -> string) (bbox : option (list Q)) :
  k <> "bbox" -> lookup k (bbox_param str bbox) = None.
Proof.
  intro H. apply String.eqb_neq in H. unfold bbox_param.
  destruct bbox as [[| a [| b [| c [| d [| x l]]]]] |]; cbn [lookup]; try reflexivity.
  rewrite H. reflexivity.
Qed.

Lemma lookup_name_param (k : string) (name : option string) :
  k <> "name" -> lookup k (name_param name) = None.
Proof.
  intro H. apply String.eqb_neq in H. unfold name_param.
  destruct name as [s |]; [destruct (String.eqb s EmptyString) |]; cbn [lookup];
    try reflexivity.
  rewrite H. reflexivity.
Qed.

Lemma lookup_level_param (k : string) (level : option Z) :
  k <> "level" -> lookup k (level_param level) = None.
Proof.
  intro H. apply String.eqb_neq in H. unfold level_param.
  destruct level as [l |]; [destruct (andb _ _) |]; cbn [lookup]; try reflexivity.
  rewrite H. reflexivity.
Qed.

(** Each optional parameter of administrative-area search sits under its
    own key. *)
Lemma admin_params_lookup (str : Q -> string) (limit offset : Z)
    (point bbox : option (list Q)) (name : option string) (level : option Z) :
  let ps := admin_params str limit offset point bbox name level in
  lookup "point" ps = lookup "point" (point_param str point) /\
  lookup "bbox" ps = lookup "bbox" (bbox_param str bbox) /\
  lookup "name" ps = lookup "name" (name_param name) /\
  lookup "level" ps = lookup "level" (level_param level).
Proof.
  cbn zeta. unfold admin_params. rewrite !lookup_app.
  cbn [lookup String.eqb Ascii.eqb Bool.eqb].
  rewrite (lookup_point_param "bbox"), (lookup_point_param "name"),
    (lookup_point_param "level"), (lookup_bbox_param "point"),
    (lookup_bbox_param "name"), (lookup_bbox_param "level"),
    (lookup_name_param "point"), (lookup_name_param "bbox"),
    (lookup_name_param "level"), (lookup_level_param "point"),
    (lookup_level_param "bbox"), (lookup_level_param "name") by discriminate.
  repeat split.
  - destruct (lookup "point" _); reflexivity.
  - destruct (lookup "bbox" _); reflexivity.
  - destruct (lookup "name" _); reflexivity.
Qed.

(** The [name] filter of administrative-area search is cut to its first 50
    characters: what is sent is a prefix of the caller's name, of length
    [min 50 (len name)], the name itself when it has at most 50 characters;
    an empty name is not sent. *)
Theorem admin_name_truncated (limit offset : Z) (point bbox : option (list Q))
    (name : string) (level : option Z) (e : env) (log : list request) :
  exists r,
    sends (search_administrative_areas limit offset point bbox (Some name) level)
      e log r /\
    (name = EmptyString -> lookup "name" (req_params r) = None) /\
    (name <> EmptyString ->
     exists t,
       lookup "name" (req_params r) = Some (JStr t) /\
       String.length t = Nat.min 50 (String.length name) /\
       prefix t name = true /\
       ((String.length name <= 50)%nat -> t = name)).
Proof.
  eexists. split.
  - unfold sends, log_after. rewrite search_administrative_areas_run. reflexivity.
  - cbn [req_params get_request].
    destruct (admin_params_lookup (str_float e) limit offset point bbox (Some name) level)
      as (_ & _ & -> & _).
    unfold name_param. split; intro H.
    + subst name. reflexivity.
    + apply String.eqb_neq in H. rewrite H. cbn [lookup String.eqb Ascii.eqb Bool.eqb].
      exists (substring 0 50 name). split; [reflexivity|].
      split; [apply substring_length|].
      split; [apply substring_prefix | apply substring_whole].
Qed.

Lemma admin_name_truncated_witness :
  exists r,
    sends (search_administrative_areas 10 0 None None
             (Some "Llanfairpwllgwyngyllgogerychwyrndrobwllllantysiliogogogoch") None)
      (constant_env unreachable) [] r /\
    lookup "name" (req_params r)
    = Some (JStr "Llanfairpwllgwyngyllgogerychwyrndrobwllllantysilio").
Proof.
  destruct (admin_name_truncated 10 0 None None
              "Llanfairpwllgwyngyllgogerychwyrndrobwllllantysiliogogogoch" None
              (constant_env unreachable) [])
    as (r & Hr & _ & Hcut).
  exists r. split; [exact Hr|].
  destruct (Hcut ltac:(discriminate)) as (t & Ht & _ & _ & _).
  rewrite Ht. unfold sends, log_after in Hr. cbn in Hr. injection Hr as <-.
  cbn in Ht. injection Ht as <-. reflexivity.
Defined.

(** Administrative-area search sends [level] exactly when it is 0, 1 or 2,
    [point] exactly when the caller gives two coordinates and [bbox] exactly
    when the caller gives four; any other value is left out of the request,
    which is sent all the same. *)
Theorem admin_search_gates (limit offset : Z) (point bbox : option (list Q))
    (name : option string) (level : option Z) (e : env) (log : list request) :
  exists r,
    sends (search_administrative_areas limit offset point bbox name level) e log r /\
    (forall l, lookup "level" (req_params r) = Some (JInt l)
               <-> level = Some l /\ 0 <= l <= 2) /\
    (lookup "level" (req_params r) = None
     <-> forall l, level = Some l -> l < 0 \/ 2 < l) /\
    (lookup "point" (req_params r) <> None <-> exists x y, point = Some [x; y]) /\
    (lookup "bbox" (req_params r) <> None
     <-> exists a b c d, bbox = Some [a; b; c; d]).
Proof.
  eexists. split.
  - unfold sends, log_after. rewrite search_administrative_areas_run. reflexivity.
  - cbn [req_params get_request].
    destruct (admin_params_lookup (str_float e) limit offset point bbox name level)
      as (-> & -> & _ & ->).
    split; [| split; [| split]].
    + intro l. unfold level_param. destruct level as [l0 |].
      * destruct (andb _ _) eqn:E; cbn [lookup String.eqb Ascii.eqb Bool.eqb].
        -- apply andb_true_iff in E. split.
           ++ intro H. injection H as <-. split; [reflexivity | lia].
           ++ intros [H _]. injection H as <-. reflexivity.
        -- apply andb_false_iff in E. split; [discriminate|].
           intros [H Hr]. injection H as <-. lia.
      * cbn [lookup]. split; [discriminate | intros [H _]; discriminate H].
    + unfold level_param. destruct level as [l0 |].
      * destruct (andb _ _) eqn:E; cbn [lookup String.eqb Ascii.eqb Bool.eqb].
        -- apply andb_true_iff in E. split; [discriminate|].
           intro H. specialize (H l0 eq_refl). lia.
        -- apply andb_false_iff in E. split; [| reflexivity].
           intros _ l H. injection H as <-. lia.
      * cbn [lookup]. split; [intros _ l H; discriminate H | reflexivity].
    + unfold point_param.
      destruct point as [[| x [| y [| z l]]] |];
        cbn [lookup String.eqb Ascii.eqb Bool.eqb]; split;
        try (intro H; exfalso; apply H; reflexivity);
        try (intros (x' & y' & H'); discriminate H').
      * intros _. exists x, y. reflexivity.
      * intros _. discriminate.
    + unfold bbox_param.
      destruct bbox as [[| a [| b [| c [| d [| x l]]]]] |];
        cbn [lookup String.eqb Ascii.eqb Bool.eqb]; split;
        try (intro H; exfalso; apply H; reflexivity);
        try (intros (a' & b' & c' & d' & H'); discriminate H').
      * intros _. exists a, b, c, d. reflexivity.
      * intros _. discriminate.
Qed.

Lemma admin_search_gates_witness :
  exists r,
    sends (search_administrative_areas 5 0 (Some [2.35; 48.85]%Q) (Some [1; 2; 3]%Q)
             None (Some 3))
      (constant_env unreachable) [] r /\
    lookup "level" (req_params r) = None /\
    lookup "point" (req_params r) <> None /\
    lookup "bbox" (req_params r) = None.
Proof.
  destruct (admin_search_gates 5 0 (Some [2.35; 48.85]%Q) (Some [1; 2; 3]%Q) None (Some 3)
              (constant_env unreachable) [])
    as (r & Hr & _ & Hlevel & Hpoint & Hbbox).
  exists r. split; [exact Hr|]. split; [| split].
  - apply (proj2 Hlevel). intros l H. injection H as <-. right. lia.
  - apply (proj2 Hpoint). exists 2.35%Q, 48.85%Q. reflexivity.
  - destruct (lookup "bbox" (req_params r)) eqn:E; [| reflexivity].
    exfalso. assert (Hn : Some j <> None) by discriminate.
    apply (proj1 Hbbox) in Hn. destruct Hn as (a & b & c & d & H). discriminate H.
Defined.

(** *** Country emissions *)

(** [get_country_emissions] sends a year inside [2000, 2050] as it is, a
    year below 2000 as 2000 and a year above 2050 as 2050; the sector filter
    goes under [sector], the subsector filter under [subsectors], and every
    filter is present exactly when its list is given and non-empty. *)
Theorem country_emissions_request (since to : Z)
    (sector subsector continents groups countries : option (list string))
    (e : env) (log : list request) :
  exists r s t,
    sends (get_country_emissions since to sector subsector continents groups countries)
      e log r /\
    req_url r = CLIMATETRACE_API_BASE (cfg e) ++ "/country/emissions" /\
    lookup "since" (req_params r) = Some (JInt s) /\
    lookup "to" (req_params r) = Some (JInt t) /\
    (2000 <= since <= 2050 -> s = since) /\
    (since < 2000 -> s = 2000) /\ (2050 < since -> s = 2050) /\
    (2000 <= to <= 2050 -> t = to) /\
    (to < 2000 -> t = 2000) /\ (2050 < to -> t = 2050) /\
    lookup "sector" (req_params r) = joined sector /\
    lookup "subsectors" (req_params r) = joined subsector /\
    lookup "continents" (req_params r) = joined continents /\
    lookup "groups" (req_params r) = joined groups /\
    lookup "countries" (req_params r) = joined countries.
Proof.
  eexists. exists (Z.max 2000 (Z.min since 2050)), (Z.max 2000 (Z.min to 2050)).
  split.
  - unfold sends, log_after. rewrite get_country_emissions_run. reflexivity.
  - cbn [req_url req_params get_request]. unfold country_params, year_params.
    repeat split; try lia; lookup_params; try reflexivity;
      repeat match goal with
        | |- context [joined ?l] => destruct (joined l)
        end; reflexivity.
Qed.

Lemma country_emissions_request_witness :
  exists r,
    sends (get_country_emissions 1995 2022 (Some ["power"]) None None None None)
      (constant_env unreachable) [] r /\
    lookup "since" (req_params r) = Some (JInt 2000) /\
    lookup "to" (req_params r) = Some (JInt 2022) /\
    lookup "sector" (req_params r) = Some (JStr "power").
Proof.
  destruct (country_emissions_request 1995 2022 (Some ["power"]) None None None None
              (constant_env unreachable) [])
    as (r & s & t & Hr & _ & Hs & Ht & _ & Hlow & _ & Hin & _ & _ & Hsec & _).
  exists r. rewrite (Hlow ltac:(lia)) in Hs. rewrite (Hin ltac:(lia)) in Ht.
  repeat split; assumption.
Defined.

(** *** Asset emissions *)

Lemma get_asset_emissions_run years a ss s co g c gas e log :
  let r := get_request (CLIMATETRACE_API_BASE (cfg e) ++ "/assets/emissions")
             (emissions_params years a ss s co g c gas) in
  get_asset_emissions years a ss s co g c gas e log
  = (answer e log r, (log ++ [r])%list).
Proof.
  unfold get_asset_emissions, answer, get_request. run.
  destruct (upstream e log _); reflexivity.
Qed.

Lemma lookup_years_param (k : string) (years : option (list Z)) :
  lookup k (years_param years) = if String.eqb k "years" then joined_years years else None.
Proof.
  unfold years_param, joined_years. destruct years as [[| y r] |]; cbn [lookup];
    destruct (String.eqb k "years"); reflexivity.
Qed.

Lemma lookup_gas_param (k : string) (gas : option string) :
  lookup k (gas_param gas) = if String.eqb k "gas" then nonempty gas else None.
Proof.
  unfold gas_param, nonempty.
  destruct gas as [g |]; [destruct (String.eqb g EmptyString) |]; cbn [lookup];
    destruct (String.eqb k "gas"); reflexivity.
Qed.

(** [get_asset_emissions] sends one request to [/assets/emissions] in which
    every filter sits under its own key, present exactly when it is given
    and not empty (not 0 for [adminId]); the years are written in decimal
    and joined with commas.  With no filter the request has no parameter. *)
Theorem asset_emissions_filters (years : option (list Z)) (admin_id : option Z)
    (subsectors sectors continents groups countries : option (list string))
    (gas : option string) (e : env) (log : list request) :
  exists r,
    sends (get_asset_emissions years admin_id subsectors sectors continents groups
             countries gas) e log r /\
    req_url r = CLIMATETRACE_API_BASE (cfg e) ++ "/assets/emissions" /\
    lookup "years" (req_params r) = joined_years years /\
    lookup "adminId" (req_params r) = nonzero admin_id /\
    lookup "subsectors" (req_params r) = joined subsectors /\
    lookup "sectors" (req_params r) = joined sectors /\
    lookup "continents" (req_params r) = joined continents /\
    lookup "groups" (req_params r) = joined groups /\
    lookup "countries" (req_params r) = joined countries /\
    lookup "gas" (req_params r) = nonempty gas /\
    (joined_years years = None -> nonzero admin_id = None ->
     joined subsectors = None -> joined sectors = None ->
     joined continents = None -> joined groups = None ->
     joined countries = None -> nonempty gas = None ->
     req_params r = []).
Proof.
  eexists. split.
  - unfold sends, log_after. rewrite get_asset_emissions_run. reflexivity.
  - cbn [req_url req_params get_request]. unfold emissions_params.
    repeat split;
      try (repeat (rewrite lookup_app || rewrite lookup_list_param
                   || rewrite lookup_admin_param || rewrite lookup_years_param
                   || rewrite lookup_gas_param);
           cbn [lookup String.eqb Ascii.eqb Bool.eqb];
           repeat match goal with
             | |- context [joined_years ?l] => destruct (joined_years l)
             | |- context [nonzero ?l] => destruct (nonzero l)
             | |- context [joined ?l] => destruct (joined l)
             end; reflexivity).
    intros Hy Ha Hss Hs Hco Hg Hc Hgas.
    unfold years_param, admin_param, list_param, gas_param.
    unfold joined_years in Hy. unfold nonzero in Ha. unfold nonempty in Hgas.
    unfold joined in Hss, Hs, Hco, Hg, Hc.
    destruct years as [[| y r] |]; try discriminate Hy;
      (destruct admin_id as [z |]; [destruct (z =? 0)%Z; try discriminate Ha |]);
      (destruct subsectors as [[| x1 r1] |]; try discriminate Hss);
      (destruct sectors as [[| x2 r2] |]; try discriminate Hs);
      (destruct continents as [[| x3 r3] |]; try discriminate Hco);
      (destruct groups as [[| x4 r4] |]; try discriminate Hg);
      (destruct countries as [[| x5 r5] |]; try discriminate Hc);
      (destruct gas as [g0 |];
       [destruct (String.eqb g0 EmptyString); try discriminate Hgas |]);
      reflexivity.
Qed.

Lemma asset_emissions_filters_witness :
  exists r,
    sends (get_asset_emissions (Some []) (Some 0) None (Some []) None None None
             (Some EmptyString))
      (constant_env unreachable) [] r /\
    req_params r = [].
Proof.
  destruct (asset_emissions_filters (Some []) (Some 0) None (Some []) None None None
              (Some EmptyString) (constant_env unreachable) [])
    as (r & Hr & _ & _ & _ & _ & _ & _ & _ & _ & _ & Hnone).
  exists r. split; [exact Hr|]. apply Hnone; reflexivity.
Defined.

(** *** Catalogue lookups *)

Lemma plain_lookup_intro (f : M json) (path : string) :
  (forall e log,
     f e log
     = (answer e log (get_request (CLIMATETRACE_API_BASE (cfg e) ++ path) []),
        (log ++ [get_request (CLIMATETRACE_API_BASE (cfg e) ++ path) []])%list)) ->
  plain_lookup f path.
Proof.
  intros H e log. cbn zeta. unfold sends, log_after, value. rewrite H. cbn [fst snd].
  unfold answer. split; [reflexivity|]. split.
  - intros body ->. reflexivity.
  - intros x ->. reflexivity.
Qed.

Ltac plain :=
  apply plain_lookup_intro; intros e log; unfold answer, get_request; run;
  destruct (upstream e log _); reflexivity.

(** The five definition lookups besides the sector catalogue, and the
    GeoJSON lookup of an administrative area given by number or by name,
    each send one GET without parameters and never raise: the decoded body
    is returned as it is, a failure becomes [{'error': str(e)}]. *)
Theorem catalogue_lookups (admin_id : Z + string) :
  plain_lookup get_subsectors "/definitions/subsectors" /\
  plain_lookup get_countries "/definitions/countries" /\
  plain_lookup get_groups "/definitions/groups" /\
  plain_lookup get_continents "/definitions/continents" /\
  plain_lookup get_gases "/definitions/gases" /\
  plain_lookup (get_admin_geojson admin_id)
    ("/admins/" ++ str_admin admin_id ++ "/geojson").
Proof.
  split; [unfold get_subsectors; plain|].
  split; [unfold get_countries; plain|].
  split; [unfold get_groups; plain|].
  split; [unfold get_continents; plain|].
  split; [unfold get_gases; plain|].
  unfold get_admin_geojson. plain.
Qed.

Lemma catalogue_lookups_witness :
  value get_gases (constant_env (Resp (JArr [JStr "co2"; JStr "ch4"]))) []
  = JArr [JStr "co2"; JStr "ch4"] /\
  value (get_admin_geojson (inl 42)) (constant_env unreachable) []
  = JObj [("error", JStr "connection refused")].
Proof.
  split.
  - apply (proj1 (proj2 (proj1 (proj2 (proj2 (proj2 (proj2
             (catalogue_lookups (inl 42))))))
             (constant_env (Resp (JArr [JStr "co2"; JStr "ch4"]))) []))).
    reflexivity.
  - apply (proj2 (proj2 (proj2 (proj2 (proj2 (proj2 (proj2
             (catalogue_lookups (inl 42))))))
             (constant_env unreachable) []))
             (Exn RequestException "connection refused")).
    reflexivity.
Defined.

(** *** Global summary *)

Lemma get_countries_run e log :
  let r := get_request (CLIMATETRACE_API_BASE (cfg e) ++ "/definitions/countries") [] in
  get_countries e log = (answer e log r, (log ++ [r])%list).
Proof.
  unfold get_countries, answer, get_request. run.
  destruct (upstream e log _); reflexivity.
Qed.

(** [get_global_emissions_summary] always sends its four requests, in the
    order country emissions, asset emissions, sectors, countries, the first
    two restricted to the year only; it returns the six-field mapping, never
    an error mapping, each section holding what its own request gave, be it
    data or that request's error mapping. *)
Theorem global_summary_sections (year : Z) (e : env) (log : list request) :
  let base := CLIMATETRACE_API_BASE (cfg e) in
  let r1 := get_request (base ++ "/country/emissions") (year_params year year) in
  let r2 := get_request (base ++ "/assets/emissions")
              [("years", JStr (str_int year))] in
  let r3 := get_request (base ++ "/definitions/sectors") [] in
  let r4 := get_request (base ++ "/definitions/countries") [] in
  log_after (get_global_emissions_summary year) e log = (log ++ [r1; r2; r3; r4])%list /\
  value (get_global_emissions_summary year) e log
  = JObj [("year", JInt year);
          ("country_emissions", answer e log r1);
          ("asset_emissions", answer e (log ++ [r1]) r2);
          ("available_sectors", answer e (log ++ [r1; r2]) r3);
          ("available_countries", answer e (log ++ [r1; r2; r3]) r4);
          ("timestamp", JStr (now_iso e (log ++ [r1; r2; r3; r4])))] /\
  is_error (value (get_global_emissions_summary year) e log) = false.
Proof.
  intros base r1 r2 r3 r4.
  assert (H : get_global_emissions_summary year e log
              = (JObj [("year", JInt year);
                       ("country_emissions", answer e log r1);
                       ("asset_emissions", answer e (log ++ [r1]) r2);
                       ("available_sectors", answer e (log ++ [r1; r2]) r3);
                       ("available_countries", answer e (log ++ [r1; r2; r3]) r4);
                       ("timestamp", JStr (now_iso e (log ++ [r1; r2; r3; r4])))],
                 (log ++ [r1; r2; r3; r4])%list)).
  { unfold get_global_emissions_summary. run.
    rewrite get_country_emissions_run. cbn zeta.
    rewrite get_asset_emissions_run. cbn zeta.
    rewrite get_sectors_run. cbn zeta.
    rewrite get_countries_run. cbn zeta.
    rewrite <- !app_assoc. reflexivity. }
  unfold log_after, value. rewrite H. repeat split.
Qed.

(** *** Emissions near a point *)

(** Whatever the point and the radius, the emissions-source search that
    [get_emissions_by_location] sends away from the equator carries no
    location at all: it is the search for the first 50 sources of 2022. *)
Theorem location_sources_unfiltered (lat lon : Q) (radius_km : Z)
    (e : env) (log : list request) :
  ~ lat == 0 ->
  exists r1,
    log_after (get_emissions_by_location lat lon radius_km) e log
    = (log ++ [r1;
               get_request (CLIMATETRACE_API_BASE (cfg e) ++ "/assets")
                 [("limit", JInt 50); ("year", JInt 2022); ("offset", JInt 0)]])%list /\
    field "emissions_sources" (value (get_emissions_by_location lat lon radius_km) e log)
    = Some (answer e (log ++ [r1])
              (get_request (CLIMATETRACE_API_BASE (cfg e) ++ "/assets")
                 [("limit", JInt 50); ("year", JInt 2022); ("offset", JInt 0)])).
Proof.
  intro Hlat.
  assert (Hz : Qeq_bool (111 * Qabs lat) 0 = false).
  { destruct (Qeq_bool (111 * Qabs lat) 0) eqn:E; [| reflexivity].
    apply divisor_zero in E. contradiction. }
  eexists. unfold log_after, value, get_emissions_by_location.
  rewrite lat_offset_defined. unfold py_div. rewrite Hz. run.
  rewrite search_administrative_areas_run. cbn zeta.
  rewrite search_emissions_sources_run. cbn zeta. cbn [fst snd].
  split; [rewrite <- app_assoc; reflexivity | reflexivity].
Qed.

Lemma location_sources_unfiltered_witness :
  exists r1,
    log_after (get_emissions_by_location 48.85 2.35 50) (constant_env unreachable) []
    = [r1;
       get_request "https://api.climatetrace.org/v6/assets"
         [("limit", JInt 50); ("year", JInt 2022); ("offset", JInt 0)]].
Proof.
  destruct (location_sources_unfiltered 48.85 2.35 50 (constant_env unreachable) [])
    as (r1 & Hlog & _).
  - intro H. discriminate H.
  - exists r1. exact Hlog.
Defined.

End TraceFacts.

(* ================================================================== *)
(** ** Properties of the aggregation handler                          *)
(* ================================================================== *)

Module HandlerFacts.
Import Py Net ClimateAPIHandler Spec.

Ltac run := TraceFacts.run.

(** Splits a successful chain of binds into its successful steps. *)
Ltac bind_ok H :=
  repeat match type of H with
    | bindR ?r _ = Ok _ =>
        let E := fresh "E" in
        destruct r eqn:E; cbn [bindR] in H; [| discriminate H]
    end.

(** A request followed by pure decoding of its body, under a handler. *)
Lemma request_then_decode (mk : settings -> request) (post : json -> result json)
    (handler : exn -> M json) (e : env) (log : list request) :
  try_except (e' <~ ask ;; data <~ send (mk (cfg e')) ;; liftR (post data)) handler e log
  = match upstream e log (mk (cfg e)) with
    | Resp data =>
        match post data with
        | Ok v => (v, (log ++ [mk (cfg e)])%list)
        | Raise x => handler x e (log ++ [mk (cfg e)])%list
        end
    | Fail x => handler x e (log ++ [mk (cfg e)])%list
    end.
Proof.
  run. destruct (upstream e log (mk (cfg e))); [destruct (post body)|]; reflexivity.
Qed.

(** *** Carbon footprint *)

Lemma unsupported_activity (t : string) (data : json) :
  t <> "electricity" -> t <> "vehicle" -> t <> "flight" ->
  _prepare_carbon_payload t data
  = Raise (Exn ValueError ("Unsupported activity type: " ++ t)).
Proof.
  intros H1 H2 H3. unfold _prepare_carbon_payload.
  apply String.eqb_neq in H1, H2, H3. rewrite H1, H2, H3. reflexivity.
Qed.

Lemma carbon_request_logged (t : string) (data payload : json) (e : env)
    (log : list request) :
  _prepare_carbon_payload t data = Ok payload ->
  log_after (calculate_carbon_footprint t data) e log
  = (log ++ [carbon_request (cfg e) payload])%list.
Proof.
  intro H. unfold calculate_carbon_footprint. run. rewrite H.
  destruct (upstream e log _); [|reflexivity].
  destruct (carbon_of_response t data body); reflexivity.
Qed.

(** C4: an activity type other than the three supported kinds yields the
    error mapping that carries the validation message, with the request log
    untouched; for each supported kind and any mapping of activity data the
    request that is sent carries the fixed payload shape, absent fields
    taking their defaults. *)
Theorem carbon_footprint_validation
    (activity_type : string) (m : list (string * json)) (data : json)
    (e : env) (log : list request) :
  (activity_type <> "electricity" -> activity_type <> "vehicle" ->
   activity_type <> "flight" ->
   calculate_carbon_footprint activity_type data e log
   = (JObj [("error", JStr ("Unsupported activity type: " ++ activity_type))], log)) /\
  log_after (calculate_carbon_footprint "electricity" (JObj m)) e log
  = (log ++ [carbon_request (cfg e)
               (JObj [("type", JStr "electricity");
                      ("electricity_unit", JStr "kwh");
                      ("electricity_value", dict_get m "kwh" (JInt 0));
                      ("country", dict_get m "country" (JStr "us"))])])%list /\
  log_after (calculate_carbon_footprint "vehicle" (JObj m)) e log
  = (log ++ [carbon_request (cfg e)
               (JObj [("type", JStr "vehicle");
                      ("distance_unit", dict_get m "distance_unit" (JStr "km"));
                      ("distance_value", dict_get m "distance" (JInt 0));
                      ("vehicle_model_id",
                       dict_get m "vehicle_model_id" (JStr default_vehicle_model))])])%list /\
  log_after (calculate_carbon_footprint "flight" (JObj m)) e log
  = (log ++ [carbon_request (cfg e)
               (JObj [("type", JStr "flight");
                      ("passengers", dict_get m "passengers" (JInt 1));
                      ("legs", dict_get m "legs" (JArr []))])])%list /\
  _prepare_carbon_payload "electricity"
    (JObj [("kwh", JInt 100); ("country", JStr "us")])
  = Ok (JObj [("type", JStr "electricity");
              ("electricity_unit", JStr "kwh");
              ("electricity_value", JInt 100);
              ("country", JStr "us")]).
Proof.
  split; [| split; [| split; [| split]]].
  - intros H1 H2 H3. unfold calculate_carbon_footprint. run.
    rewrite (unsupported_activity activity_type data H1 H2 H3). reflexivity.
  - apply carbon_request_logged. reflexivity.
  - apply carbon_request_logged. reflexivity.
  - apply carbon_request_logged. reflexivity.
  - reflexivity.
Qed.

Lemma carbon_footprint_validation_witness :
  calculate_carbon_footprint "train" (JObj [("km", JInt 12)])
    (constant_env unreachable) []
  = (JObj [("error", JStr "Unsupported activity type: train")], []).
Proof.
  apply (proj1 (carbon_footprint_validation "train" [] (JObj [("km", JInt 12)])
                  (constant_env unreachable) [])); discriminate.
Defined.

(** *** Weather *)

Lemma weather_of_response_shape (data v : json) :
  weather_of_response data = Ok v ->
  exists name country temp humidity pressure description speed lat lon,
    v = JObj [("location", name); ("country", country); ("temperature", temp);
              ("humidity", humidity); ("pressure", pressure);
              ("weather", description); ("wind_speed", speed);
              ("coordinates", JObj [("lat", lat); ("lon", lon)])].
Proof.
  unfold weather_of_response. intro H. bind_ok H.
  injection H as <-. do 9 eexists. reflexivity.
Qed.

Lemma get_weather_data_run (location : string) (e : env) (log : list request) :
  get_weather_data location e log
  = (match upstream e log (weather_request (cfg e) location) with
     | Resp data =>
         match weather_of_response data with
         | Ok v => v
         | Raise _ => _get_fallback_weather_data e location
         end
     | Fail _ => _get_fallback_weather_data e location
     end, (log ++ [weather_request (cfg e) location])%list).
Proof.
  unfold get_weather_data.
  rewrite (request_then_decode (fun s => weather_request s location)).
  destruct (upstream e log _); [destruct (weather_of_response body)|]; reflexivity.
Qed.

(** C6: whatever the upstream does, [get_weather_data] returns a mapping
    that has every weather field and no ['error'] key.  It is either the
    mapping decoded from a successful response, or the fallback for the
    location, which carries the ['note'] marker. *)
Theorem weather_always_populated (location : string) (e : env) (log : list request) :
  exists m,
    value (get_weather_data location) e log = JObj m /\
    Forall (fun k => has_key k m = true) weather_fields /\
    has_key "error" m = false /\
    ((exists data,
        upstream e log (weather_request (cfg e) location) = Resp data /\
        weather_of_response data = Ok (JObj m))
     \/
     (JObj m = _get_fallback_weather_data e location /\
      lookup "note" m = Some (JStr fallback_note))).
Proof.
  unfold value. rewrite get_weather_data_run. cbn [fst].
  assert (Hfb : exists m,
             _get_fallback_weather_data e location = JObj m /\
             Forall (fun k => has_key k m = true) weather_fields /\
             has_key "error" m = false /\
             lookup "note" m = Some (JStr fallback_note)).
  { eexists. split; [reflexivity|].
    split; [repeat constructor | split; reflexivity]. }
  destruct Hfb as (mf & Hf & Hall & Herr & Hnote).
  destruct (upstream e log _) as [data | x] eqn:Hup.
  - destruct (weather_of_response data) as [v | x] eqn:Hw.
    + destruct (weather_of_response_shape _ _ Hw)
        as (a1 & a2 & a3 & a4 & a5 & a6 & a7 & a8 & a9 & ->).
      eexists. split; [reflexivity|].
      split; [repeat constructor|].
      split; [reflexivity|].
      left. exists data. split; [reflexivity | exact Hw].
    + exists mf. rewrite Hf. repeat split; try assumption.
      right. split; [reflexivity | exact Hnote].
  - exists mf. rewrite Hf. repeat split; try assumption.
    right. split; [reflexivity | exact Hnote].
Qed.

Lemma city_lookup_none (k : string) (t : list (string * city)) :
  city_lookup k t = None <-> ~ In k (map fst t).
Proof.
  induction t as [| [k' c] t IH]; cbn [city_lookup map fst In].
  - tauto.
  - destruct (String.eqb k k') eqn:E.
    + apply String.eqb_eq in E. subst k'. split; [discriminate | tauto].
    + apply String.eqb_neq in E. rewrite IH. split.
      * intros H [H' | H']; [congruence | tauto].
      * tauto.
Qed.

(** Every key of the city table is in lower case. *)
Lemma city_keys_lowercase (k : string) (c : city) :
  city_lookup k city_data = Some c -> lower k = k.
Proof.
  unfold city_data. cbn [city_lookup].
  repeat (destruct (String.eqb k _) eqn:E;
          [apply String.eqb_eq in E; subst k; reflexivity | clear E]).
  discriminate.
Qed.

(** C7: the fallback reports [location.title()], whatever the name.  The
    table is looked up with [location.lower()]: when that is not a key of
    the city table ([city_lookup_none]: is not among its keys) the country,
    temperature and coordinates are those of the [new york] entry, and when
    it is a key they are those of its entry.  [str.lower] and [str.title]
    are the environment's, so this holds of names in any script.  The keys
    of the table are ASCII and in lower case. *)
Theorem weather_fallback_city (e : env) (location : string) :
  field "location" (_get_fallback_weather_data e location)
  = Some (JStr (str_title e location)) /\
  city_lookup "new york" city_data = Some new_york /\
  (city_lookup (str_lower e location) city_data = None ->
   city_fields new_york (_get_fallback_weather_data e location)) /\
  (forall c,
     city_lookup (str_lower e location) city_data = Some c ->
     city_fields c (_get_fallback_weather_data e location)) /\
  (forall key c, city_lookup key city_data = Some c -> lower key = key).
Proof.
  split; [reflexivity|]. split; [reflexivity|].
  unfold _get_fallback_weather_data, city_fields.
  split; [| split].
  - intros ->. repeat split.
  - intros c ->. repeat split.
  - exact city_keys_lowercase.
Qed.

Lemma weather_fallback_city_witness :
  city_fields new_york
    (_get_fallback_weather_data (constant_env unreachable) "atlantis rising") /\
  field "location"
    (_get_fallback_weather_data (constant_env unreachable) "atlantis rising")
  = Some (JStr "Atlantis Rising") /\
  city_fields (City 51.5074 (-0.1278) 12 "GB")
    (_get_fallback_weather_data (constant_env unreachable) "LoNdOn").
Proof.
  split; [| split].
  - apply (proj1 (proj2 (proj2 (weather_fallback_city (constant_env unreachable)
                                  "atlantis rising")))).
    reflexivity.
  - apply (proj1 (weather_fallback_city (constant_env unreachable) "atlantis rising")).
  - apply (proj1 (proj2 (proj2 (proj2 (weather_fallback_city
                                         (constant_env unreachable) "LoNdOn"))))).
    reflexivity.
Defined.

(** *** Air quality *)

Lemma get_air_quality_run (lat lon : Q) (e : env) (log : list request) :
  let r := air_quality_request (cfg e) lat lon in
  let log' := (log ++ [r])%list in
  get_air_quality lat lon e log
  = (match upstream e log r with
     | Resp data =>
         match air_quality_of_response data with
         | Ok v => v
         | Raise _ => fallback_air_quality (now_epoch e log')
         end
     | Fail _ => fallback_air_quality (now_epoch e log')
     end, log').
Proof.
  cbn zeta. unfold get_air_quality.
  rewrite (request_then_decode (fun s => air_quality_request s lat lon)).
  destruct (upstream e log _); [destruct (air_quality_of_response body)|]; reflexivity.
Qed.

Lemma air_quality_live_unmarked (data v : json) :
  air_quality_of_response data = Ok v -> field "note" v = None.
Proof.
  unfold air_quality_of_response. intro H.
  destruct (py_getitem data "list") as [l |]; cbn [bindR] in H; [| discriminate H].
  destruct (py_truthy l).
  - bind_ok H. injection H as <-. reflexivity.
  - injection H as <-. reflexivity.
Qed.

(** C10, as the code has it: a successful response whose ['list'] is empty
    yields [{'error': 'No air quality data available'}], which is not the
    fallback.  The fallback, recognisable by its ['note'], is returned
    exactly when the [try] block raises: the request fails, or decoding its
    body raises. *)
Theorem air_quality_empty_list (lat lon : Q) (e : env) (log : list request) :
  let r := air_quality_request (cfg e) lat lon in
  (forall data l,
     upstream e log r = Resp data ->
     py_getitem data "list" = Ok l -> py_truthy l = false ->
     get_air_quality lat lon e log = (no_air_quality, (log ++ [r])%list)) /\
  (forall t, no_air_quality <> fallback_air_quality t) /\
  (field "note" (value (get_air_quality lat lon) e log) = Some (JStr fallback_note)
   <->
   (exists x, upstream e log r = Fail x) \/
   (exists data x, upstream e log r = Resp data /\
                   air_quality_of_response data = Raise x)).
Proof.
  cbn zeta. split; [| split].
  - intros data l Hup Hl Ht. rewrite get_air_quality_run. cbn zeta. rewrite Hup.
    unfold air_quality_of_response. rewrite Hl. cbn [bindR]. rewrite Ht. reflexivity.
  - intros t H. discriminate H.
  - unfold value. rewrite get_air_quality_run. cbn zeta. cbn [fst].
    destruct (upstream e log _) as [data | x].
    + destruct (air_quality_of_response data) as [v | x] eqn:Hv.
      * rewrite (air_quality_live_unmarked _ _ Hv). split.
        -- discriminate.
        -- intros [[x H] | (d & x & H & H')]; [discriminate H|].
           injection H as <-. rewrite Hv in H'. discriminate H'.
      * split; [| reflexivity]. intros _. right. exists data, x.
        split; [reflexivity | exact Hv].
    + split; [| reflexivity]. intros _. left. exists x. reflexivity.
Qed.

Lemma air_quality_empty_list_witness :
  get_air_quality 40.71 (-74.00) (constant_env (Resp (JObj [("list", JArr [])]))) []
  = (no_air_quality,
     [air_quality_request example_settings 40.71 (-74.00)]).
Proof.
  apply (proj1 (air_quality_empty_list 40.71 (-74.00)
                  (constant_env (Resp (JObj [("list", JArr [])]))) [])
           (JObj [("list", JArr [])]) (JArr []));
    reflexivity.
Defined.

(** C10, as stated, fails on a body without the expected keys: the request
    itself succeeds with [{}], yet the fallback is returned. *)
Lemma air_quality_fallback_without_request_failure :
  upstream (constant_env (Resp (JObj []))) []
    (air_quality_request example_settings 40.71 (-74.00))
  = Resp (JObj []) /\
  value (get_air_quality 40.71 (-74.00)) (constant_env (Resp (JObj []))) []
  = fallback_air_quality 1704067200 /\
  field "note"
    (value (get_air_quality 40.71 (-74.00)) (constant_env (Resp (JObj []))) [])
  = Some (JStr fallback_note).
Proof.
  split; [| split]; reflexivity.
Qed.

(** *** Heat map *)

Ltac step H :=
  match type of H with
  | bindR ?r _ = Ok _ =>
      let E := fresh "E" in
      destruct r eqn:E; cbn [bindR] in H; [| discriminate H]
  | (if negb ?c then _ else _) = Ok _ =>
      let E := fresh "E" in
      destruct c eqn:E; cbn [negb] in H; [| discriminate H]
  | (if ?c then _ else _) = Ok _ =>
      let E := fresh "E" in
      destruct c eqn:E; [discriminate H |]
  end.

Lemma in_bounds_true (b : bounds) (lon lat : json) :
  in_bounds b lon lat = Ok true ->
  exists x y,
    as_number lon = Some x /\ as_number lat = Some y /\
    (west b <= x)%Q /\ (x <= east b)%Q /\ (south b <= y)%Q /\ (y <= north b)%Q.
Proof.
  unfold in_bounds, num_le_py, py_le_num. intro H.
  destruct (as_number lon) as [x |]; cbn [bindR] in H; [| discriminate H].
  destruct (Qle_bool (west b) x) eqn:E1; cbn [negb] in H; [| discriminate H].
  destruct (Qle_bool x (east b)) eqn:E2; cbn [negb] in H; [| discriminate H].
  destruct (as_number lat) as [y |]; cbn [bindR] in H; [| discriminate H].
  destruct (Qle_bool (south b) y) eqn:E3; cbn [negb] in H; [| discriminate H].
  injection H as E4.
  exists x, y. repeat split; try reflexivity; apply Qle_bool_iff; assumption.
Qed.

Lemma heat_map_point_some (b : bounds) (source p : json) :
  heat_map_point b source = Ok (Some p) ->
  exists lon lat emissions id name country sector,
    p = JObj [("lat", lat); ("lon", lon); ("intensity", emissions);
              ("source_id", id); ("name", name);
              ("country", country); ("sector", sector)] /\
    in_bounds b lon lat = Ok true /\
    source_emissions source = Ok emissions.
Proof.
  unfold heat_map_point. intro H. repeat step H.
  injection H as <-. subst. do 7 eexists. split; [reflexivity|].
  split; first [eassumption | reflexivity].
Qed.

Lemma heat_map_point_in_box (b : bounds) (source p : json) :
  heat_map_point b source = Ok (Some p) -> point_in_box b p.
Proof.
  intro H. apply heat_map_point_some in H.
  destruct H as (lon & lat & em & id & nm & co & se & -> & Hin & _).
  apply in_bounds_true in Hin. destruct Hin as (x & y & Hx & Hy & H1 & H2 & H3 & H4).
  exists lon, lat, x, y. repeat split; assumption.
Qed.

Lemma heat_map_loop_forall (P : json -> Prop) (b : bounds) :
  (forall source p, heat_map_point b source = Ok (Some p) -> P p) ->
  forall assets acc pts,
    Forall P acc -> heat_map_loop b assets acc = Ok pts -> Forall P pts.
Proof.
  intro HP. induction assets as [| source rest IH]; intros acc pts Hacc H;
    cbn [heat_map_loop] in H.
  - injection H as <-. exact Hacc.
  - destruct (heat_map_point b source) as [[p |] |] eqn:E; cbn [bindR] in H;
      [| | discriminate H].
    + apply (IH _ _ ltac:(apply Forall_app; split;
                          [exact Hacc | constructor; [exact (HP _ _ E) | constructor]]) H).
    + apply (IH _ _ Hacc H).
Qed.

Lemma get_emissions_heat_map_data_run (ba : option bounds) (year : Z)
    (sector : option string) (e : env) (log : list request) :
  let b := effective_bounds ba in
  let r := heat_map_request (cfg e) year sector in
  let sources_data := answer e log r in
  get_emissions_heat_map_data ba year sector e log
  = (match py_contains "error" sources_data with
     | Raise x => error_dict x
     | Ok true => sources_data
     | Ok false =>
         match heat_map_points_of b (assets_of sources_data) with
         | Ok pts =>
             JObj [("points", JArr pts);
                   ("bounds", bounds_json b);
                   ("year", JInt year);
                   ("sector", opt_str sector);
                   ("total_sources", JInt (Z.of_nat (List.length pts)))]
         | Raise x => error_dict x
         end
     end, (log ++ [r])%list).
Proof.
  cbn zeta. unfold get_emissions_heat_map_data. run.
  rewrite TraceFacts.search_emissions_sources_run. cbn zeta.
  fold (heat_map_request (cfg e) year sector). fold (effective_bounds ba).
  destruct (py_contains "error" _) as [[|] |]; try reflexivity.
  destruct (heat_map_points_of _ _); reflexivity.
Qed.

Lemma lacking_centroid_skipped (b : bounds) (source : json) :
  well_formed_centroid source = true -> centroid source = None ->
  heat_map_point b source = Ok None.
Proof.
  unfold well_formed_centroid, centroid, heat_map_point, path2.
  destruct source; try discriminate. cbn [is_obj andb field py_contains py_getitem bindR].
  unfold has_key.
  destruct (lookup "Centroid" m) as [c |]; [| reflexivity].
  destruct c; try discriminate. cbn [field negb bindR py_contains py_getitem].
  unfold has_key.
  destruct (lookup "Geometry" m0) as [g |]; [| reflexivity].
  destruct g; try discriminate. cbn [negb bindR py_len].
  destruct l as [| lon [| lat rest]]; try reflexivity.
  discriminate.
Qed.

Lemma scan_summary_objects (entries : list json) (emissions : json) :
  forallb is_obj entries = true ->
  scan_summary entries emissions
  = Ok (match find (fun entry => canonical_gas (entry_gas entry)) entries with
        | Some entry => entry_quantity entry
        | None => emissions
        end).
Proof.
  induction entries as [| entry rest IH]; cbn [forallb scan_summary find];
    [reflexivity|].
  intro H. apply andb_true_iff in H. destruct H as [Ho Hr].
  destruct entry; try discriminate Ho.
  cbn [py_get bindR entry_gas entry_quantity].
  destruct (canonical_gas (dict_get m "Gas" JNull)); [reflexivity | exact (IH Hr)].
Qed.

Lemma source_emissions_refines (source : json) :
  is_obj source = true -> well_formed_summary source = true ->
  source_emissions source = Ok (first_canonical (summary_entries source)).
Proof.
  unfold well_formed_summary, source_emissions, summary_entries, first_canonical.
  destruct source; try discriminate. intros _.
  cbn [field py_contains py_getitem bindR]. unfold has_key.
  destruct (lookup "EmissionsSummary" m) as [s |]; [| reflexivity].
  destruct s; try discriminate. intro H.
  cbn [py_iter bindR]. rewrite (scan_summary_objects _ _ H). reflexivity.
Qed.

Lemma heat_map_point_refines (b : bounds) (source : json) :
  well_formed_asset source = true ->
  heat_map_point b source = Ok (spec_point b source).
Proof.
  unfold well_formed_asset. intro H. apply andb_true_iff in H. destruct H as [Hc Hs].
  assert (Ho : is_obj source = true).
  { unfold well_formed_centroid in Hc. apply andb_true_iff in Hc. tauto. }
  pose proof (source_emissions_refines source Ho Hs) as Hem.
  unfold heat_map_point, spec_point, inside, centroid, path2, field_or.
  rewrite Hem. clear Hem Hs.
  unfold well_formed_centroid in Hc. rewrite Ho in Hc. cbn [andb] in Hc.
  destruct source; try discriminate Ho.
  cbn [field py_contains py_getitem py_get bindR] in *. unfold has_key, dict_get.
  destruct (lookup "Centroid" m) as [c |]; [| reflexivity].
  destruct c; try discriminate Hc.
  cbn [field negb bindR py_contains py_getitem]. unfold has_key.
  destruct (lookup "Geometry" m0) as [g |]; [| reflexivity].
  destruct g; try discriminate Hc. cbn [negb bindR py_len].
  destruct l as [| lon [| lat rest]]; try reflexivity.
  apply andb_true_iff in Hc. destruct Hc as [Hlon Hlat].
  unfold is_number in Hlon, Hlat.
  cbn [List.length Nat.ltb Nat.leb py_getitem_idx nth_error bindR].
  unfold in_bounds, num_le_py, py_le_num.
  destruct (as_number lon) as [x |]; [| discriminate Hlon].
  destruct (as_number lat) as [y |]; [| discriminate Hlat].
  cbn [bindR].
  destruct (Qle_bool (west b) x); cbn [negb andb]; [| reflexivity].
  destruct (Qle_bool x (east b)); cbn [negb andb]; [| reflexivity].
  destruct (Qle_bool (south b) y); cbn [negb andb]; [| reflexivity].
  destruct (Qle_bool y (north b)); cbn [negb andb bindR]; reflexivity.
Qed.

Lemma heat_map_loop_refines (b : bounds) (assets : list json) :
  Forall (fun source => well_formed_asset source = true) assets ->
  forall acc, heat_map_loop b assets acc = Ok (acc ++ points_of b assets)%list.
Proof.
  induction 1 as [| source rest Hwf _ IH]; intro acc; cbn [heat_map_loop points_of flat_map].
  - rewrite app_nil_r. reflexivity.
  - rewrite (heat_map_point_refines b source Hwf). cbn [bindR].
    rewrite IH. fold (points_of b rest).
    destruct (spec_point b source); [rewrite <- app_assoc |]; reflexivity.
Qed.

Lemma points_of_intensity (b : bounds) (assets : list json) :
  Forall2 (fun source p =>
             spec_point b source = Some p /\
             field "intensity" p = Some (first_canonical (summary_entries source)))
          (filter (inside b) assets) (points_of b assets).
Proof.
  induction assets as [| source rest IH]; cbn [filter points_of flat_map];
    [constructor|].
  fold (points_of b rest).
  destruct (spec_point b source) as [p |] eqn:Hp.
  - pose proof Hp as Hp'. unfold spec_point in Hp'.
    destruct (inside b source); [| discriminate Hp'].
    cbn [app]. constructor; [| exact IH].
    split; [exact Hp|].
    destruct (centroid source) as [[lon lat] |]; [| discriminate Hp'].
    injection Hp' as <-. reflexivity.
  - unfold spec_point in Hp. cbn [app].
    destruct (inside b source) eqn:Hin; [| exact IH].
    unfold inside in Hin.
    destruct (centroid source) as [[lon lat] |]; discriminate.
Qed.

Lemma first_canonical_none (entries : list json) :
  (forall entry, In entry entries -> canonical_gas (entry_gas entry) = false) ->
  first_canonical entries = JInt 0.
Proof.
  intro H. unfold first_canonical.
  destruct (find _ entries) as [entry |] eqn:E; [| reflexivity].
  apply find_some in E. destruct E as [Hin Hg]. rewrite (H _ Hin) in Hg.
  discriminate Hg.
Qed.

Lemma scan_summary_sound (entries : list json) (emissions v : json) :
  scan_summary entries emissions = Ok v ->
  v = match find (fun entry => canonical_gas (entry_gas entry)) entries with
      | Some entry => entry_quantity entry
      | None => emissions
      end.
Proof.
  induction entries as [| entry rest IH]; cbn [scan_summary find]; intro H.
  - injection H as <-. reflexivity.
  - destruct entry; try discriminate H.
    cbn [py_get bindR entry_gas entry_quantity] in *.
    destruct (canonical_gas (dict_get m "Gas" JNull)).
    + injection H as <-. reflexivity.
    + exact (IH H).
Qed.

Lemma source_emissions_sound (source v : json) :
  source_emissions source = Ok v ->
  v = first_canonical (summary_entries source).
Proof.
  unfold source_emissions, summary_entries, first_canonical, quantity_of. intro H.
  destruct source; try discriminate H; cbn [py_contains bindR field] in *.
  - destruct (is_substring "EmissionsSummary" s); [discriminate H|].
    injection H as <-. reflexivity.
  - destruct (existsb (is_str "EmissionsSummary") l); [discriminate H|].
    injection H as <-. reflexivity.
  - unfold has_key in H. cbn [py_getitem] in H.
    destruct (lookup "EmissionsSummary" m) as [summary |]; cbn [bindR] in H.
    + destruct (py_iter summary) as [entries |]; cbn [bindR] in H; [| discriminate H].
      apply scan_summary_sound in H. exact H.
    + injection H as <-. reflexivity.
Qed.

Lemma heat_map_loop_sources (b : bounds) (assets : list json) :
  forall acc pts,
    heat_map_loop b assets acc = Ok pts ->
    exists added,
      pts = (acc ++ added)%list /\
      Forall (fun p => exists source,
                In source assets /\ heat_map_point b source = Ok (Some p)) added.
Proof.
  induction assets as [| source rest IH]; intros acc pts H; cbn [heat_map_loop] in H.
  - injection H as <-. exists []. rewrite app_nil_r. split; constructor.
  - destruct (heat_map_point b source) as [[p |] |] eqn:E; cbn [bindR] in H;
      [| | discriminate H];
      destruct (IH _ _ H) as (added & -> & Hadded).
    + exists (p :: added). rewrite <- app_assoc. split; [reflexivity|].
      constructor.
      * exists source. split; [left; reflexivity | exact E].
      * eapply Forall_impl; [| exact Hadded]. cbv beta.
        intros q (src & Hin & Hq). exists src. split; [right; exact Hin | exact Hq].
    + exists added. split; [reflexivity|].
      eapply Forall_impl; [| exact Hadded]. cbv beta.
      intros q (src & Hin & Hq). exists src. split; [right; exact Hin | exact Hq].
Qed.

(** The points of a result that is not an error are those the loop gathered
    from the upstream's records. *)
Lemma heat_map_result_points (ba : option bounds) (year : Z) (sector : option string)
    (e : env) (log : list request) (m : list (string * json)) (pts : list json) :
  value (get_emissions_heat_map_data ba year sector) e log = JObj m ->
  has_key "error" m = false ->
  lookup "points" m = Some (JArr pts) ->
  heat_map_loop (effective_bounds ba)
    (records_of (assets_of (answer e log (heat_map_request (cfg e) year sector)))) []
  = Ok pts.
Proof.
  intros Hv Herr Hpts. unfold value in Hv.
  rewrite get_emissions_heat_map_data_run in Hv. cbn zeta in Hv. cbn [fst] in Hv.
  destruct (py_contains "error" _) as [[|] |] eqn:Hc.
  - rewrite Hv in Hc. cbn [py_contains] in Hc. congruence.
  - destruct (heat_map_points_of _ _) as [pts' | x] eqn:Hp.
    + injection Hv as <-. cbn in Hpts. injection Hpts as <-.
      unfold heat_map_points_of in Hp. unfold records_of.
      destruct (assets_of _) as [| | | | | l |]; exact Hp.
    + injection Hv as <-. discriminate Herr.
  - injection Hv as <-. discriminate Herr.
Qed.

(** For well-formed records the handler computes the specified points. *)
Lemma heat_map_data_refines (ba : option bounds) (year : Z) (sector : option string)
    (e : env) (log : list request) (sources_data : json) (assets : list json) :
  upstream e log (heat_map_request (cfg e) year sector) = Resp sources_data ->
  py_contains "error" sources_data = Ok false ->
  assets_of sources_data = JArr assets ->
  Forall (fun source => well_formed_asset source = true) assets ->
  value (get_emissions_heat_map_data ba year sector) e log
  = JObj [("points", JArr (points_of (effective_bounds ba) assets));
          ("bounds", bounds_json (effective_bounds ba));
          ("year", JInt year);
          ("sector", opt_str sector);
          ("total_sources",
           JInt (Z.of_nat (List.length (points_of (effective_bounds ba) assets))))].
Proof.
  intros Hup Herr Has Hwf.
  unfold value. rewrite get_emissions_heat_map_data_run. cbn zeta. cbn [fst].
  unfold answer. rewrite Hup, Herr, Has. cbn [heat_map_points_of].
  rewrite (heat_map_loop_refines _ _ Hwf). reflexivity.
Qed.

Lemma lacks_geometry_skipped (b : bounds) (source : json) :
  lacks_geometry source = true -> heat_map_point b source = Ok None.
Proof.
  unfold lacks_geometry, heat_map_point, path2.
  destruct source; try discriminate. cbn [py_contains py_getitem bindR].
  unfold has_key.
  destruct (lookup "Centroid" m) as [c |]; [| reflexivity].
  destruct c; try discriminate. cbn [negb bindR py_contains py_getitem].
  unfold has_key.
  destruct (lookup "Geometry" m0) as [g |]; [| reflexivity].
  destruct g; try discriminate. cbn [negb bindR py_len].
  intros ->. reflexivity.
Qed.

Lemma broken_geometry_raises (b : bounds) (source : json) :
  broken_geometry source = true -> exists x, heat_map_point b source = Raise x.
Proof.
  unfold broken_geometry, heat_map_point, path2.
  destruct source; try discriminate. cbn [py_contains py_getitem bindR].
  unfold has_key.
  destruct (lookup "Centroid" m) as [c |]; [| discriminate].
  cbn [negb bindR].
  destruct c; cbn [scalar py_contains bindR]; intro H; try discriminate H;
    try (eexists; reflexivity).
  unfold has_key. cbn [py_getitem].
  destruct (lookup "Geometry" m0) as [g |]; [| discriminate H].
  cbn [negb bindR].
  destruct g; try discriminate H; eexists; reflexivity.
Qed.

(** An iteration that raises ends the loop, wherever it stands. *)
Lemma heat_map_loop_raises (b : bounds) (assets : list json) (source : json) (x : exn) :
  In source assets -> heat_map_point b source = Raise x ->
  forall acc, exists x', heat_map_loop b assets acc = Raise x'.
Proof.
  intros Hin Hx. induction assets as [| s rest IH]; [contradiction|].
  intro acc. cbn [heat_map_loop].
  destruct Hin as [-> | Hin].
  - rewrite Hx. eexists. reflexivity.
  - destruct (heat_map_point b s) as [p |]; cbn [bindR].
    + apply (IH Hin).
    + eexists. reflexivity.
Qed.

(** C3, as the code has it.  Whenever [get_emissions_heat_map_data] returns
    a mapping that is not an error, every point of its ['points'] list has
    numeric coordinates with [west <= lon <= east] and
    [south <= lat <= north] for the box in force (the caller's, degenerate
    or not, or the default one).  A record that has no [Centroid] key, whose
    [Centroid] is a mapping without [Geometry], or whose [Geometry] is a
    list of fewer than two elements adds no point: the loop goes on with the
    points gathered so far.  A record whose [Centroid], or the [Geometry] in
    it, is present but null (or a number, or a boolean) is not passed over:
    its iteration raises, and with such a record among the assets the whole
    call returns an error mapping, without any point. *)
Theorem heat_map_points_in_box (ba : option bounds) (year : Z)
    (sector : option string) (e : env) (log : list request) :
  (forall m pts,
     value (get_emissions_heat_map_data ba year sector) e log = JObj m ->
     has_key "error" m = false ->
     lookup "points" m = Some (JArr pts) ->
     Forall (point_in_box (effective_bounds ba)) pts) /\
  (forall b source rest acc,
     lacks_geometry source = true ->
     heat_map_point b source = Ok None /\
     heat_map_loop b (source :: rest) acc = heat_map_loop b rest acc) /\
  (forall b source,
     broken_geometry source = true ->
     exists x, heat_map_point b source = Raise x) /\
  (forall sources_data assets source,
     upstream e log (heat_map_request (cfg e) year sector) = Resp sources_data ->
     py_contains "error" sources_data = Ok false ->
     assets_of sources_data = JArr assets ->
     In source assets ->
     broken_geometry source = true ->
     is_error (value (get_emissions_heat_map_data ba year sector) e log) = true /\
     field "points" (value (get_emissions_heat_map_data ba year sector) e log) = None).
Proof.
  split; [| split; [| split]].
  - intros m pts Hv Herr Hpts.
    pose proof (heat_map_result_points _ _ _ _ _ _ _ Hv Herr Hpts) as Hloop.
    apply (heat_map_loop_forall _ _ (heat_map_point_in_box _) _ _ _
             (Forall_nil _) Hloop).
  - intros b source rest acc Hc.
    pose proof (lacks_geometry_skipped b source Hc) as Hs.
    split; [exact Hs|]. cbn [heat_map_loop]. rewrite Hs. reflexivity.
  - intros b source. apply broken_geometry_raises.
  - intros sources_data assets source Hup Herr Has Hin Hbad.
    destruct (broken_geometry_raises (effective_bounds ba) source Hbad) as (x & Hx).
    destruct (heat_map_loop_raises _ _ _ _ Hin Hx []) as (x' & Hloop).
    unfold value. rewrite get_emissions_heat_map_data_run. cbn zeta. cbn [fst].
    unfold answer. rewrite Hup, Herr, Has. cbn [heat_map_points_of].
    rewrite Hloop. split; reflexivity.
Qed.

(** C1, as the code has it.  Every point of a result of
    [get_emissions_heat_map_data] that is not an error comes from one of the
    upstream's records, and its intensity is the emissions quantity (0 when
    the entry has none) of the first entry of that record's summary list, in
    list order, whose gas code is [co2e_100yr] or [co2e]; neither code is
    preferred over the other.  When the upstream answers with well-formed
    records, a result is returned and it has one such point per record whose
    centroid lies inside the box, in order.  When no entry has either code
    the intensity is 0. *)
Theorem heat_map_intensity_first_match (ba : option bounds) (year : Z)
    (sector : option string) (e : env) (log : list request) :
  (forall m pts,
     value (get_emissions_heat_map_data ba year sector) e log = JObj m ->
     has_key "error" m = false ->
     lookup "points" m = Some (JArr pts) ->
     Forall (fun p =>
               exists source,
                 In source (records_of (assets_of
                    (answer e log (heat_map_request (cfg e) year sector)))) /\
                 heat_map_point (effective_bounds ba) source = Ok (Some p) /\
                 field "intensity" p
                 = Some (first_canonical (summary_entries source)))
            pts) /\
  (forall sources_data assets,
     upstream e log (heat_map_request (cfg e) year sector) = Resp sources_data ->
     py_contains "error" sources_data = Ok false ->
     assets_of sources_data = JArr assets ->
     Forall (fun source => well_formed_asset source = true) assets ->
     exists pts,
       field "points" (value (get_emissions_heat_map_data ba year sector) e log)
       = Some (JArr pts) /\
       Forall2 (fun source p =>
                  field "intensity" p
                  = Some (first_canonical (summary_entries source)))
               (filter (inside (effective_bounds ba)) assets) pts) /\
  (forall source,
     (forall entry, In entry (summary_entries source) ->
                    canonical_gas (entry_gas entry) = false) ->
     first_canonical (summary_entries source) = JInt 0).
Proof.
  split; [| split].
  - intros m pts Hv Herr Hpts.
    pose proof (heat_map_result_points _ _ _ _ _ _ _ Hv Herr Hpts) as Hloop.
    apply heat_map_loop_sources in Hloop. destruct Hloop as (added & -> & Hadded).
    cbn [app]. eapply Forall_impl; [| exact Hadded]. cbv beta.
    intros p (source & Hin & Hp). exists source.
    split; [exact Hin|]. split; [exact Hp|].
    destruct (heat_map_point_some _ _ _ Hp)
      as (lon & lat & em & id & nm & co & se & -> & _ & Hem).
    apply source_emissions_sound in Hem. subst em. reflexivity.
  - intros sources_data assets Hup Herr Has Hwf.
    exists (points_of (effective_bounds ba) assets).
    rewrite (heat_map_data_refines _ _ _ _ _ _ _ Hup Herr Has Hwf).
    split; [reflexivity|].
    eapply Forall2_impl; [| apply points_of_intensity].
    intros source p [_ H]. exact H.
  - intros source. apply first_canonical_none.
Qed.

(** *** Global overview *)













(** [list.sort] with any key: the result holds the same entries. *)
Section StableSort.

Variable key : json -> Q.



Variable P : json -> Prop.



End StableSort.






Lemma get_global_emissions_overview_run (year : Z) (e : env) (log : list request) :
  let r1 := overview_request (cfg e) year in
  let log1 := (log ++ [r1])%list in
  let country_emissions := answer e log r1 in
  let r2 := sectors_request (cfg e) in
  let log2 := (log1 ++ [r2])%list in
  get_global_emissions_overview year e log
  = match py_contains "error" country_emissions with
    | Raise x => (error_dict x, log1)
    | Ok true => (country_emissions, log1)
    | Ok false =>
        (match rank_countries (float_add e) country_emissions with
         | Ok tr =>
             JObj [("year", JInt year);
                   ("total_global_emissions", fst tr);
                   ("top_countries",
                    JArr (firstn 10 (sort_desc emissions_key (snd tr))));
                   ("available_sectors", answer e log1 r2);
                   ("data_sources",
                    JArr [JStr "Climate TRACE"; JStr "World Bank"; JStr "UN SDG"]);
                   ("last_updated", JStr (now_iso e log2))]
         | Raise x => error_dict x
         end, log2)
    end.
Proof.
  cbn zeta. unfold get_global_emissions_overview. run.
  rewrite TraceFacts.get_country_emissions_run. cbn zeta.
  fold (overview_request (cfg e) year).
  destruct (py_contains "error" _) as [[|] |]; try reflexivity.
  rewrite TraceFacts.get_sectors_run. cbn zeta. fold (sectors_request (cfg e)).
  destruct (rank_countries _ _); reflexivity.
Qed.








Example global_overview_example :
  field "top_countries"
    (value (get_global_emissions_overview 2022)
       (constant_env (Resp (JArr countries_response))) [])
  = Some (JArr [JObj [("country", JStr "CHN"); ("emissions", JInt 4);
                      ("rank", JInt 1)];
                JObj [("country", JStr "USA"); ("emissions", JFloat 2.5);
                      ("rank", JInt 2)]]) /\
  field "total_global_emissions"
    (value (get_global_emissions_overview 2022)
       (constant_env (Resp (JArr countries_response))) [])
  = Some (JFloat 6.5).
Proof. split; vm_compute; reflexivity. Qed.

(** *** Examples and counterexamples for the heat map *)

Lemma heat_map_points_in_box_witness :
  Forall (point_in_box default_bounds) [point_a] /\
  heat_map_point default_bounds plant_c = Ok None /\
  is_error (value (get_emissions_heat_map_data None 2022 (Some "power"))
              (constant_env (Resp (JArr [plant_a; plant_d]))) []) = true.
Proof.
  split; [| split].
  - apply (proj1 (heat_map_points_in_box None 2022 (Some "power")
                    (constant_env (Resp assets_response)) [])
             [("points", JArr [point_a]);
              ("bounds", bounds_json default_bounds);
              ("year", JInt 2022);
              ("sector", JStr "power");
              ("total_sources", JInt 1)]);
      reflexivity.
  - apply (proj1 (proj2 (heat_map_points_in_box None 2022 (Some "power")
                           (constant_env (Resp assets_response)) []))
             default_bounds plant_c [] []).
    reflexivity.
  - apply (proj2 (proj2 (proj2 (heat_map_points_in_box None 2022 (Some "power")
                                  (constant_env (Resp (JArr [plant_a; plant_d]))) [])))
             (JArr [plant_a; plant_d]) [plant_a; plant_d] plant_d).
    + reflexivity.
    + reflexivity.
    + reflexivity.
    + right. left. reflexivity.
    + reflexivity.
Defined.

(** C3, as stated, fails on a record whose centroid is null.  The record
    lacks a two-element centroid geometry, yet it is not skipped: the point
    of the record before it is lost with it, the call returning an error
    mapping. *)
Lemma heat_map_null_centroid_not_skipped :
  centroid plant_d = None /\
  inside default_bounds plant_a = true /\
  is_error (value (get_emissions_heat_map_data None 2022 None)
              (constant_env (Resp (JObj [("assets", JArr [plant_a; plant_d])]))) [])
  = true /\
  field "points" (value (get_emissions_heat_map_data None 2022 None)
                    (constant_env (Resp (JObj [("assets", JArr [plant_a; plant_d])]))) [])
  = None /\
  field "points" (value (get_emissions_heat_map_data None 2022 None)
                    (constant_env (Resp (JObj [("assets", JArr [plant_a])]))) [])
  = Some (JArr [point_a]).
Proof.
  split; [reflexivity|]. split; [reflexivity|]. split; [reflexivity|].
  split; reflexivity.
Qed.

Lemma heat_map_intensity_first_match_witness :
  exists pts,
    field "points"
      (value (get_emissions_heat_map_data None 2022 (Some "power"))
         (constant_env (Resp assets_response)) [])
    = Some (JArr pts) /\
    Forall2 (fun source p =>
               field "intensity" p
               = Some (first_canonical (summary_entries source)))
            (filter (inside default_bounds) [plant_a; plant_b; plant_c]) pts.
Proof.
  apply (proj1 (proj2 (heat_map_intensity_first_match None 2022 (Some "power")
                         (constant_env (Resp assets_response)) []))
           assets_response [plant_a; plant_b; plant_c]).
  - reflexivity.
  - reflexivity.
  - reflexivity.
  - repeat constructor.
Defined.

(** C1, as stated, fails on a record that lists [co2e] before [co2e_100yr]:
    the point's intensity is the [co2e] quantity, 5, where preference for
    [co2e_100yr] would give 7. *)
Lemma heat_map_intensity_not_preferred :
  inside default_bounds plant_a = true /\
  field "points"
    (value (get_emissions_heat_map_data None 2022 (Some "power"))
       (constant_env (Resp (JObj [("assets", JArr [plant_a])]))) [])
  = Some (JArr [point_a]) /\
  field "intensity" point_a = Some (JInt 5) /\
  preferred_canonical (summary_entries plant_a) = JInt 7 /\
  field "intensity" point_a <> Some (preferred_canonical (summary_entries plant_a)).
Proof.
  split; [reflexivity|]. split; [reflexivity|]. split; [reflexivity|].
  split; [reflexivity|]. intro H. discriminate H.
Qed.

(** *** Renewable potential *)

Ltac eqb_prop H :=
  match type of H with
  | String.eqb _ _ = true => apply String.eqb_eq in H
  | String.eqb _ _ = false => apply String.eqb_neq in H
  end.

(** The recommendation list is never empty and has at most three entries;
    it is the pair of generic suggestions exactly when neither potential is
    ["High"] or ["Medium"] (any other string counts as low). *)
Theorem recommendations_never_empty (solar_potential wind_potential : string) :
  let recs := _generate_renewable_recommendations solar_potential wind_potential in
  recs <> [] /\
  (1 <= List.length recs <= 3)%nat /\
  (recs = generic_recommendations
   <-> solar_potential <> "High" /\ solar_potential <> "Medium" /\
       wind_potential <> "High" /\ wind_potential <> "Medium").
Proof.
  cbn zeta. unfold _generate_renewable_recommendations, generic_recommendations.
  destruct (String.eqb solar_potential "High") eqn:S1;
    destruct (String.eqb solar_potential "Medium") eqn:S2;
    destruct (String.eqb wind_potential "High") eqn:W1;
    destruct (String.eqb wind_potential "Medium") eqn:W2;
    cbn [app List.length];
    eqb_prop S1; eqb_prop S2; eqb_prop W1; eqb_prop W2;
    (split; [discriminate|]); (split; [lia|]);
    (split; [intro H; try discriminate H; repeat split; assumption
            | intros (H1 & H2 & H3 & H4); try contradiction; reflexivity]).
Qed.

Lemma recommendations_never_empty_witness :
  _generate_renewable_recommendations "Low" "unknown" = generic_recommendations /\
  (1 <= List.length (_generate_renewable_recommendations "High" "Medium") <= 3)%nat.
Proof.
  split.
  - apply (proj2 (proj2 (recommendations_never_empty "Low" "unknown"))).
    repeat split; discriminate.
  - apply (proj1 (proj2 (recommendations_never_empty "High" "Medium"))).
Defined.





Lemma send_then_decode (r : request) (post : json -> result json)
    (e : env) (log : list request) :
  try_except (data <~ send r ;; liftR (post data)) on_error e log
  = (decoded post e log r, (log ++ [r])%list).
Proof.
  unfold decoded. run. destruct (upstream e log r); [destruct (post body)|]; reflexivity.
Qed.

Lemma nasa_of_response_shape (data v : json) :
  nasa_of_response data = Ok v ->
  exists solar temperature wind lat lon,
    v = JObj [("solar_irradiance", solar); ("temperature", temperature);
              ("wind_speed", wind);
              ("location", JObj [("lat", lat); ("lon", lon)])].
Proof.
  unfold nasa_of_response. intro H. bind_ok H.
  injection H as <-. do 5 eexists. reflexivity.
Qed.

(** The weather mapping always has coordinates and never an error key. *)
Lemma weather_coordinates (location : string) (e : env) (log : list request) :
  exists m lat lon,
    get_weather_data location e log
    = (JObj m, (log ++ [weather_request (cfg e) location])%list) /\
    has_key "error" m = false /\
    lookup "coordinates" m = Some (JObj [("lat", lat); ("lon", lon)]) /\
    (forall x, upstream e log (weather_request (cfg e) location) = Fail x ->
               JObj m = _get_fallback_weather_data e location).
Proof.
  rewrite get_weather_data_run.
  destruct (upstream e log _) as [data | x].
  - destruct (weather_of_response data) as [v | x] eqn:Hw.
    + destruct (weather_of_response_shape _ _ Hw)
        as (a1 & a2 & a3 & a4 & a5 & a6 & a7 & lat & lon & ->).
      do 3 eexists. split; [reflexivity|]. split; [reflexivity|].
      split; [reflexivity | discriminate].
    + do 3 eexists. split; [reflexivity|]. split; [reflexivity|].
      split; [reflexivity | discriminate].
  - do 3 eexists. split; [reflexivity|]. split; [reflexivity|].
    split; [reflexivity | reflexivity].
Qed.

(** [get_renewable_energy_potential] always sends two requests: the weather
    lookup and then, because the weather mapping never has an error key,
    the NASA POWER request for the coordinates of that mapping (those of the
    fallback city when the weather lookup fails) over the window from 30
    days ago to today.  A failure of the NASA request is returned as its
    error mapping; decoded NASA data goes on to the grading. *)
Theorem renewable_pipeline (cx : context) (location : string) (e : env)
    (log : list request) :
  exists lat lon,
    field "coordinates" (value (get_weather_data location) e log)
    = Some (JObj [("lat", lat); ("lon", lon)]) /\
    log_after (get_renewable_energy_potential cx location) e log
    = (log ++ [weather_request (cfg e) location;
               nasa_request cx lat lon
                 (days_ago_ymd cx 30 (log ++ [weather_request (cfg e) location]))
                 (today_ymd cx (log ++ [weather_request (cfg e) location]))])%list /\
    (forall x,
       upstream e log (weather_request (cfg e) location) = Fail x ->
       city_lookup (str_lower e location) city_data = None ->
       lat = JFloat (city_lat new_york) /\ lon = JFloat (city_lon new_york)) /\
    (forall x,
       upstream e (log ++ [weather_request (cfg e) location])
         (nasa_request cx lat lon
            (days_ago_ymd cx 30 (log ++ [weather_request (cfg e) location]))
            (today_ymd cx (log ++ [weather_request (cfg e) location]))) = Fail x ->
       value (get_renewable_energy_potential cx location) e log
       = JObj [("error", JStr (exn_str x))]) /\
    (forall data nasa_data,
       upstream e (log ++ [weather_request (cfg e) location])
         (nasa_request cx lat lon
            (days_ago_ymd cx 30 (log ++ [weather_request (cfg e) location]))
            (today_ymd cx (log ++ [weather_request (cfg e) location]))) = Resp data ->
       nasa_of_response data = Ok nasa_data ->
       value (get_renewable_energy_potential cx location) e log
       = match renewable_of_nasa cx location nasa_data with
         | Ok v => v
         | Raise x => error_dict x
         end).
Proof.
  destruct (weather_coordinates location e log) as (m & lat & lon & Hw & Herr & Hc & Hfb).
  exists lat, lon.
  set (log1 := (log ++ [weather_request (cfg e) location])%list) in *.
  set (r2 := nasa_request cx lat lon (days_ago_ymd cx 30 log1) (today_ymd cx log1)).
  assert (Hrun : get_renewable_energy_potential cx location e log
                 = (match upstream e log1 r2 with
                    | Resp data =>
                        match nasa_of_response data with
                        | Ok nasa_data =>
                            match renewable_of_nasa cx location nasa_data with
                            | Ok v => v
                            | Raise x => error_dict x
                            end
                        | Raise x => error_dict x
                        end
                    | Fail x => error_dict x
                    end, (log1 ++ [r2])%list)).
  { unfold get_renewable_energy_potential. run. rewrite Hw.
    cbn [py_contains]. rewrite Herr. unfold path2. cbn [py_getitem]. rewrite Hc.
    cbn [bindR py_getitem lookup String.eqb Ascii.eqb Bool.eqb].
    unfold today, days_ago, get_nasa_power_data.
    rewrite send_then_decode. fold log1. fold r2. unfold decoded.
    destruct (upstream e log1 r2) as [data | x]; [| reflexivity].
    destruct (nasa_of_response data) as [nasa_data | x] eqn:Hn; [| reflexivity].
    destruct (nasa_of_response_shape _ _ Hn) as (a & b & c & d & f & ->).
    cbn [py_contains has_key lookup String.eqb Ascii.eqb Bool.eqb].
    destruct (renewable_of_nasa cx location _); reflexivity. }
  unfold value, log_after. rewrite Hrun, Hw. cbn [fst snd field].
  split; [exact Hc|]. split; [unfold log1; rewrite <- app_assoc; reflexivity|].
  split; [| split].
  - intros x Hx Hnone. specialize (Hfb x Hx).
    unfold _get_fallback_weather_data in Hfb. rewrite Hnone in Hfb.
    injection Hfb as ->. cbn in Hc. injection Hc as <- <-. split; reflexivity.
  - intros x ->. reflexivity.
  - intros data nasa_data -> ->. reflexivity.
Qed.

Lemma renewable_pipeline_witness :
  log_after (get_renewable_energy_potential example_context "Unknown Town")
    (constant_env unreachable) []
  = [weather_request example_settings "Unknown Town";
     nasa_request example_context (JFloat 40.7128) (JFloat (-74.0060))
       "20231202" "20240101"] /\
  value (get_renewable_energy_potential example_context "Unknown Town")
    (constant_env unreachable) []
  = JObj [("error", JStr "connection refused")].
Proof.
  destruct (renewable_pipeline example_context "Unknown Town"
              (constant_env unreachable) [])
    as (lat & lon & _ & Hlog & Hny & Hfail & _).
  destruct (Hny (Exn RequestException "connection refused") eq_refl eq_refl)
    as [-> ->].
  split; [exact Hlog|].
  apply (Hfail (Exn RequestException "connection refused")). reflexivity.
Defined.

(** *** World Bank indicators *)

Lemma getitem_field (v x : json) (k : string) :
  py_getitem v k = Ok x -> field k v = Some x.
Proof.
  destruct v; try discriminate. cbn [py_getitem field].
  destruct (lookup k m); [intro H; injection H as <-; reflexivity | discriminate].
Qed.

Lemma world_bank_rows_sound (items kept : list json) :
  world_bank_rows items = Ok kept ->
  (List.length kept <= List.length items)%nat /\
  Forall (fun row =>
            exists item year v,
              In item items /\
              field "date" item = Some year /\ field "value" item = Some v /\
              v <> JNull /\
              row = JObj [("year", year); ("value", v)])
         kept.
Proof.
  revert kept. induction items as [| item rest IH]; intros kept H;
    cbn [world_bank_rows] in H.
  - injection H as <-. split; [reflexivity | constructor].
  - destruct (py_getitem item "value") as [v |] eqn:Hv; cbn [bindR] in H;
      [| discriminate H].
    destruct (is_none v) eqn:Hn.
    + destruct (IH _ H) as [Hlen Hall]. split; [cbn [List.length]; lia|].
      eapply Forall_impl; [| exact Hall]. cbv beta.
      intros row (it & y & w & Hin & Hd & Hw & Hnn & ->).
      exists it, y, w. repeat split; try assumption. right. exact Hin.
    + destruct (py_getitem item "date") as [year |] eqn:Hd; cbn [bindR] in H;
        [| discriminate H].
      destruct (world_bank_rows rest) as [others |]; cbn [bindR] in H;
        [| discriminate H].
      injection H as <-. destruct (IH _ eq_refl) as [Hlen Hall].
      split; [cbn [List.length]; lia|].
      constructor.
      * exists item, year, v. split; [left; reflexivity|].
        split; [apply getitem_field; exact Hd|].
        split; [apply getitem_field; exact Hv|].
        split; [intros ->; discriminate Hn | reflexivity].
      * eapply Forall_impl; [| exact Hall]. cbv beta.
        intros row (it & y & w & Hin & Hd' & Hw & Hnn & ->).
        exists it, y, w. repeat split; try assumption. right. exact Hin.
Qed.

Lemma world_bank_rows_exact (items : list json) :
  Forall (fun item => well_formed_item item = true) items ->
  world_bank_rows items = Ok (map row_of (filter has_value items)).
Proof.
  induction 1 as [| item rest Hwf _ IH]; cbn [world_bank_rows filter map];
    [reflexivity|].
  unfold well_formed_item in Hwf.
  destruct item; try discriminate Hwf. cbn [field] in Hwf.
  destruct (lookup "date" m) as [d |] eqn:Hd; [| discriminate Hwf].
  destruct (lookup "value" m) as [v |] eqn:Hv; [| discriminate Hwf].
  assert (Hhas : has_value (JObj m) = negb (is_none v)).
  { unfold has_value. cbn [field]. rewrite Hv. reflexivity. }
  assert (Hrow : row_of (JObj m) = JObj [("year", d); ("value", v)]).
  { unfold row_of, field_or. cbn [field]. rewrite Hd, Hv. reflexivity. }
  cbn [py_getitem]. rewrite Hhas, Hv, Hd. cbn [bindR].
  destruct (is_none v); cbn [negb]; [exact IH|].
  rewrite IH. cbn [bindR map]. rewrite Hrow. reflexivity.
Qed.

Lemma get_world_bank_climate_data_run (cx : context) (country_code indicator : string)
    (e : env) (log : list request) :
  get_world_bank_climate_data cx country_code indicator e log
  = (decoded world_bank_of_response e log
       (world_bank_request cx country_code indicator),
     (log ++ [world_bank_request cx country_code indicator])%list).
Proof.
  unfold get_world_bank_climate_data. apply send_then_decode.
Qed.

(** When the World Bank answers, a body with fewer than two elements, or
    whose second element is empty, yields [{'error': 'No data available'}].
    Otherwise a result that is not an error holds in ['data'] one
    [{'year', 'value'}] row per item whose value is not null, taken from that
    item, and no row with a null value; for items that all have a date and
    a value these are exactly the items with a value, in order. *)
Theorem world_bank_data_without_nulls (cx : context) (country_code indicator : string)
    (e : env) (log : list request) (data : json) :
  upstream e log (world_bank_request cx country_code indicator) = Resp data ->
  (forall n, py_len data = Ok n -> (n <= 1)%nat ->
             value (get_world_bank_climate_data cx country_code indicator) e log
             = no_data) /\
  (forall n rows, py_len data = Ok n -> (1 < n)%nat ->
                  py_getitem_idx data 1 = Ok rows -> py_truthy rows = false ->
                  value (get_world_bank_climate_data cx country_code indicator) e log
                  = no_data) /\
  (forall m,
     value (get_world_bank_climate_data cx country_code indicator) e log = JObj m ->
     has_key "error" m = false ->
     exists rows items kept,
       py_getitem_idx data 1 = Ok rows /\ py_iter rows = Ok items /\
       lookup "data" m = Some (JArr kept) /\
       (List.length kept <= List.length items)%nat /\
       Forall (fun row =>
                 exists item year v,
                   In item items /\
                   field "date" item = Some year /\ field "value" item = Some v /\
                   v <> JNull /\
                   row = JObj [("year", year); ("value", v)])
              kept /\
       (Forall (fun item => well_formed_item item = true) items ->
        kept = map row_of (filter has_value items))).
Proof.
  intro Hup. unfold value. rewrite get_world_bank_climate_data_run. cbn [fst].
  unfold decoded. rewrite Hup. unfold world_bank_of_response.
  split; [| split].
  - intros n -> Hn. cbn [bindR].
    destruct (1 <? n)%nat eqn:E; [apply Nat.ltb_lt in E; lia | reflexivity].
  - intros n rows -> Hn -> Hf. cbn [bindR].
    apply Nat.ltb_lt in Hn. rewrite Hn, Hf. reflexivity.
  - intros m Hv Herr.
    destruct (py_len data) as [n |]; cbn [bindR] in Hv;
      [| injection Hv as <-; discriminate Herr].
    destruct (1 <? n)%nat; [| injection Hv as <-; discriminate Herr].
    destruct (py_getitem_idx data 1) as [rows |] eqn:Hrows; cbn [bindR] in Hv;
      [| injection Hv as <-; discriminate Herr].
    destruct (py_truthy rows); [| injection Hv as <-; discriminate Herr].
    destruct (first_row_value data "country") as [country |]; cbn [bindR] in Hv;
      [| injection Hv as <-; discriminate Herr].
    destruct (first_row_value data "indicator") as [ind |]; cbn [bindR] in Hv;
      [| injection Hv as <-; discriminate Herr].
    destruct (py_iter rows) as [items |] eqn:Hitems; cbn [bindR] in Hv;
      [| injection Hv as <-; discriminate Herr].
    destruct (world_bank_rows items) as [kept |] eqn:Hk; cbn [bindR] in Hv;
      [| injection Hv as <-; discriminate Herr].
    injection Hv as <-.
    destruct (world_bank_rows_sound _ _ Hk) as [Hlen Hall].
    exists rows, items, kept.
    split; [reflexivity|]. split; [exact Hitems|]. split; [reflexivity|].
    split; [exact Hlen|]. split; [exact Hall|].
    intro Hwf. rewrite (world_bank_rows_exact _ Hwf) in Hk. injection Hk as <-.
    reflexivity.
Qed.

Lemma world_bank_data_without_nulls_witness :
  value (get_world_bank_climate_data example_context "WLD" "EN.ATM.CO2E.PC")
    (constant_env (Resp (JArr [JObj [("page", JInt 1)]]))) []
  = no_data /\
  value (get_world_bank_climate_data example_context "WLD" "EN.ATM.CO2E.PC")
    (constant_env (Resp (JArr [JObj [("page", JInt 1)]; JArr []]))) []
  = no_data.
Proof.
  split.
  - apply (proj1 (world_bank_data_without_nulls example_context "WLD" "EN.ATM.CO2E.PC"
                    (constant_env (Resp (JArr [JObj [("page", JInt 1)]]))) []
                    (JArr [JObj [("page", JInt 1)]]) eq_refl) 1%nat);
      [reflexivity | lia].
  - apply (proj1 (proj2 (world_bank_data_without_nulls example_context "WLD"
                    "EN.ATM.CO2E.PC"
                    (constant_env (Resp (JArr [JObj [("page", JInt 1)]; JArr []]))) []
                    (JArr [JObj [("page", JInt 1)]; JArr []]) eq_refl))
             2%nat (JArr []));
      [reflexivity | lia | reflexivity | reflexivity].
Defined.

Lemma world_bank_of_response_obj (data v : json) :
  world_bank_of_response data = Ok v -> exists m, v = JObj m.
Proof.
  unfold world_bank_of_response, no_data. intro H.
  destruct (py_len data) as [n |]; cbn [bindR] in H; [| discriminate H].
  destruct (1 <? n)%nat; [| injection H as <-; eexists; reflexivity].
  destruct (py_getitem_idx data 1) as [rows |]; cbn [bindR] in H; [| discriminate H].
  destruct (py_truthy rows); [| injection H as <-; eexists; reflexivity].
  bind_ok H. injection H as <-. eexists. reflexivity.
Qed.

Lemma world_bank_value_obj (e : env) (log : list request) (r : request) :
  exists m,
    decoded world_bank_of_response e log r = JObj m /\
    ((exists x, upstream e log r = Fail x) -> has_key "error" m = true).
Proof.
  unfold decoded. destruct (upstream e log r) as [data | x].
  - destruct (world_bank_of_response data) as [v | x] eqn:Hv.
    + destruct (world_bank_of_response_obj _ _ Hv) as (m & ->).
      exists m. split; [reflexivity|]. intros (x & Hx). discriminate Hx.
    + eexists. split; [reflexivity|]. reflexivity.
  - eexists. split; [reflexivity|]. reflexivity.
Qed.

Lemma dict_set_in (m : list (string * json)) (k k' : string) (v v' : json) :
  In (k', v') (dict_set m k v) -> (k', v') = (k, v) \/ In (k', v') m.
Proof.
  induction m as [| [k0 v0] m IH]; cbn [dict_set].
  - intros [H | []]. left. symmetry. exact H.
  - destruct (String.eqb k k0).
    + intros [H | H]; [left; symmetry; exact H | right; right; exact H].
    + intros [H | H]; [right; left; exact H|].
      destruct (IH H) as [H' | H']; [left; exact H' | right; right; exact H'].
Qed.

Lemma dict_set_length (m : list (string * json)) (k : string) (v : json) :
  (List.length (dict_set m k v) <= S (List.length m))%nat.
Proof.
  induction m as [| [k0 v0] m IH]; cbn [dict_set List.length]; [lia|].
  destruct (String.eqb k k0); cbn [List.length]; lia.
Qed.

Lemma sdg_loop_spec (cx : context) (country_code : string) (indicators : list string) :
  forall acc e log,
    exists acc',
      sdg_loop cx country_code indicators acc e log
      = (Ok acc',
         (log ++ map (world_bank_request cx country_code) indicators)%list) /\
      (List.length acc' <= List.length acc + List.length indicators)%nat /\
      (forall k v, In (k, v) acc' ->
                   In (k, v) acc \/ (In k indicators /\ is_error v = false)) /\
      ((forall log' r, exists x, upstream e log' r = Fail x) -> acc' = acc).
Proof.
  induction indicators as [| indicator rest IH]; intros acc e log.
  - exists acc. cbn [sdg_loop map]. unfold retE. rewrite app_nil_r.
    split; [reflexivity|]. split; [lia|]. split; [intros k v H; left; exact H|].
    reflexivity.
  - cbn [sdg_loop map]. unfold bindE, liftM, liftR.
    rewrite get_world_bank_climate_data_run.
    destruct (world_bank_value_obj e log (world_bank_request cx country_code indicator))
      as (m & Hm & Hfail).
    rewrite Hm. cbn [py_contains].
    destruct (has_key "error" m) eqn:Herr.
    + destruct (IH acc e (log ++ [world_bank_request cx country_code indicator])%list)
        as (acc' & Hrun & Hlen & Hin & Hall).
      exists acc'. rewrite Hrun, <- app_assoc. split; [reflexivity|].
      split; [cbn [List.length]; lia|]. split; [| exact Hall].
      intros k v H. destruct (Hin k v H) as [H' | [H' H'']];
        [left; exact H' | right; split; [right; exact H' | exact H'']].
    + destruct (IH (dict_set acc indicator (JObj m)) e
                  (log ++ [world_bank_request cx country_code indicator])%list)
        as (acc' & Hrun & Hlen & Hin & Hall).
      exists acc'. rewrite Hrun, <- app_assoc. split; [reflexivity|].
      pose proof (dict_set_length acc indicator (JObj m)) as Hd.
      split; [cbn [List.length]; lia|]. split.
      * intros k v H. destruct (Hin k v H) as [H' | [H' H'']].
        -- apply dict_set_in in H'. destruct H' as [H' | H'].
           ++ injection H' as -> ->. right. split; [left; reflexivity|].
              unfold is_error, field. unfold has_key in Herr.
              destruct (lookup "error" m); [discriminate Herr | reflexivity].
           ++ left. exact H'.
        -- right. split; [right; exact H' | exact H''].
      * intro Hdown. pose proof (Hfail (Hdown _ _)) as Ht. congruence.
Qed.

(** [get_un_sdg_indicators] sends one World Bank request per indicator of
    the fixed list, in order, whatever the answers, and returns a mapping
    that is never an error.  Its ['indicators'] holds at most five entries,
    each under one of the five codes and none with an error key: a lookup
    that fails is left out without a trace, so that with the upstream down
    ['indicators'] is empty. *)
Theorem sdg_indicators_omit_failures (cx : context) (country_code : string)
    (e : env) (log : list request) :
  exists indicators,
    log_after (get_un_sdg_indicators cx country_code) e log
    = (log ++ map (world_bank_request cx country_code) climate_indicators)%list /\
    value (get_un_sdg_indicators cx country_code) e log
    = JObj [("country", JStr country_code);
            ("indicators", JObj indicators);
            ("timestamp",
             JStr (now_iso e
                     (log ++ map (world_bank_request cx country_code)
                               climate_indicators)))] /\
    (List.length indicators <= 5)%nat /\
    (forall k v, In (k, v) indicators ->
                 In k climate_indicators /\ is_error v = false) /\
    ((forall log' r, exists x, upstream e log' r = Fail x) -> indicators = []).
Proof.
  destruct (sdg_loop_spec cx country_code climate_indicators [] e log)
    as (ind & Hrun & Hlen & Hin & Hall).
  exists ind. unfold log_after, value, get_un_sdg_indicators. run.
  rewrite Hrun. cbn [fst snd].
  split; [reflexivity|]. split; [reflexivity|]. split; [exact Hlen|].
  split; [| exact Hall].
  intros k v H. destruct (Hin k v H) as [[] | H']. exact H'.
Qed.

Lemma sdg_indicators_omit_failures_witness :
  value (get_un_sdg_indicators example_context "WLD") (constant_env unreachable) []
  = JObj [("country", JStr "WLD"); ("indicators", JObj []);
          ("timestamp", JStr "2024-01-01T00:00:00")].
Proof.
  destruct (sdg_indicators_omit_failures example_context "WLD"
              (constant_env unreachable) [])
    as (ind & _ & Hv & _ & _ & Hdown).
  rewrite Hv, Hdown; [reflexivity|].
  intros log' r. eexists. reflexivity.
Defined.

(** *** Sample data *)

(** [get_climate_trace_data] sends no request: whatever the country and the
    sector it returns the same sample total for 2023 with the note that the
    data is a sample; a missing or empty country is reported as ['global'],
    a missing or empty sector as ['all'], any other as given. *)
Theorem climate_trace_sample (country sector : option string) (e : env)
    (log : list request) :
  exists c s note,
    get_climate_trace_data country sector e log
    = (JObj [("country", JStr c); ("sector", JStr s);
             ("total_emissions_mt", JInt 50000000); ("year", JInt 2023);
             ("note", JStr note)], log) /\
    (c = "global" <-> country = None \/ country = Some EmptyString
                      \/ country = Some "global") /\
    (forall x, country = Some x -> x <> EmptyString -> c = x) /\
    (s = "all" <-> sector = None \/ sector = Some EmptyString \/ sector = Some "all") /\
    (forall x, sector = Some x -> x <> EmptyString -> s = x).
Proof.
  exists (str_or country "global"), (str_or sector "all"). eexists.
  split; [reflexivity|]. unfold str_or.
  split; [| split; [| split]].
  - destruct country as [x |]; [| tauto].
    destruct (String.eqb x EmptyString) eqn:E; eqb_prop E.
    + subst x. tauto.
    + split; [intros ->; tauto|].
      intros [H | [H | H]]; try discriminate H; injection H as ->;
        [contradiction | reflexivity].
  - intros x -> Hx. apply String.eqb_neq in Hx. rewrite Hx. reflexivity.
  - destruct sector as [x |]; [| tauto].
    destruct (String.eqb x EmptyString) eqn:E; eqb_prop E.
    + subst x. tauto.
    + split; [intros ->; tauto|].
      intros [H | [H | H]]; try discriminate H; injection H as ->;
        [contradiction | reflexivity].
  - intros x -> Hx. apply String.eqb_neq in Hx. rewrite Hx. reflexivity.
Qed.

Lemma climate_trace_sample_witness :
  get_climate_trace_data (Some "DEU") (Some EmptyString) (constant_env unreachable) []
  = (JObj [("country", JStr "DEU"); ("sector", JStr "all");
           ("total_emissions_mt", JInt 50000000); ("year", JInt 2023);
           ("note", JStr "This is sample data. Real Climate TRACE integration requires proper API access.")],
     []).
Proof.
  destruct (climate_trace_sample (Some "DEU") (Some EmptyString)
              (constant_env unreachable) [])
    as (c & s & note & Hv & _ & Hc & Hs & _).
  rewrite (Hc "DEU" eq_refl ltac:(discriminate)) in Hv.
  rewrite (proj2 Hs (or_intror (or_introl eq_refl))) in Hv.
  rewrite Hv. cbn in Hv. injection Hv as <-. reflexivity.
Defined.

(** *** Composite views *)

Lemma renewable_logs (cx : context) (location : string) (e : env) (log : list request) :
  exists v r2,
    get_renewable_energy_potential cx location e log
    = (v, (log ++ [weather_request (cfg e) location; r2])%list).
Proof.
  destruct (weather_coordinates location e log) as (m & lat & lon & Hw & Herr & Hc & _).
  unfold get_renewable_energy_potential. run. rewrite Hw.
  cbn [py_contains]. rewrite Herr. unfold path2. cbn [py_getitem]. rewrite Hc.
  cbn [bindR py_getitem lookup String.eqb Ascii.eqb Bool.eqb].
  unfold today, days_ago, get_nasa_power_data.
  rewrite send_then_decode. unfold decoded.
  destruct (upstream e _ _) as [data | x].
  - destruct (nasa_of_response data) as [nasa_data | x] eqn:Hn.
    + destruct (nasa_of_response_shape _ _ Hn) as (a & b & c & d & f & ->).
      cbn [py_contains has_key lookup String.eqb Ascii.eqb Bool.eqb].
      destruct (renewable_of_nasa cx location _);
        do 2 eexists; rewrite <- app_assoc; reflexivity.
    + do 2 eexists. rewrite <- app_assoc. reflexivity.
  - do 2 eexists. rewrite <- app_assoc. reflexivity.
Qed.

Lemma emissions_by_location_logs (lat lon : Q) (radius_km : Z) (e : env)
    (log : list request) :
  (lat == 0 ->
   ClimateTraceAPI.get_emissions_by_location lat lon radius_km e log
   = (JObj [("error", JStr "float division by zero")], log)) /\
  (~ lat == 0 ->
   exists v r1 r2,
     ClimateTraceAPI.get_emissions_by_location lat lon radius_km e log
     = (v, (log ++ [r1; r2])%list) /\
     is_error v = false).
Proof.
  unfold ClimateTraceAPI.get_emissions_by_location.
  rewrite TraceFacts.lat_offset_defined. unfold py_div. split; intro H.
  - apply TraceFacts.divisor_zero in H. rewrite H. run. reflexivity.
  - assert (Hz : Qeq_bool (111 * Qabs lat) 0 = false).
    { destruct (Qeq_bool (111 * Qabs lat) 0) eqn:E; [| reflexivity].
      apply TraceFacts.divisor_zero in E. contradiction. }
    rewrite Hz. run.
    rewrite TraceFacts.search_administrative_areas_run. cbn zeta.
    rewrite TraceFacts.search_emissions_sources_run. cbn zeta. cbn [fst snd].
    do 3 eexists. rewrite <- app_assoc. split; reflexivity.
Qed.

(** [get_location_climate_profile] never returns an error mapping: it
    returns seven fields whatever the upstreams do, the weather section
    itself never being an error.  At latitude 0 the nearby-emissions section
    is the division error and five requests are sent; at any other latitude
    the section is the composite of the two lookups and seven are sent. *)
Theorem location_profile_sections (cx : context) (lat lon : Q) (e : env)
    (log : list request) :
  exists weather air_quality renewable nearby admin stamp,
    value (get_location_climate_profile cx lat lon) e log
    = JObj [("location", JObj [("lat", JFloat lat); ("lon", JFloat lon)]);
            ("weather", weather);
            ("air_quality", air_quality);
            ("renewable_potential", renewable);
            ("nearby_emissions", nearby);
            ("administrative_areas", admin);
            ("timestamp", JStr stamp)] /\
    is_error weather = false /\
    (lat == 0 ->
     nearby = JObj [("error", JStr "float division by zero")] /\
     List.length (log_after (get_location_climate_profile cx lat lon) e log)
     = (List.length log + 5)%nat) /\
    (~ lat == 0 ->
     is_error nearby = false /\
     List.length (log_after (get_location_climate_profile cx lat lon) e log)
     = (List.length log + 7)%nat).
Proof.
  set (name := str_float e lat ++ "," ++ str_float e lon).
  destruct (weather_coordinates name e log) as (m & wlat & wlon & Hw & Herr & _ & _).
  set (log1 := (log ++ [weather_request (cfg e) name])%list) in *.
  pose proof (get_air_quality_run lat lon e log1) as Ha. cbn zeta in Ha.
  set (log2 := (log1 ++ [air_quality_request (cfg e) lat lon])%list) in *.
  destruct (renewable_logs cx name e log2) as (rv & r2 & Hr).
  set (log3 := (log2 ++ [weather_request (cfg e) name; r2])%list) in *.
  destruct (emissions_by_location_logs lat lon 50 e log3) as [Hzero Hnon].
  assert (Hlen3 : List.length log3 = (List.length log + 4)%nat).
  { unfold log3, log2, log1. rewrite !length_app. cbn [List.length]. lia. }
  destruct (Qeq_dec lat 0) as [Hlat | Hlat].
  - specialize (Hzero Hlat).
    assert (Hrun : get_location_climate_profile cx lat lon e log
                   = (JObj [("location", JObj [("lat", JFloat lat); ("lon", JFloat lon)]);
                            ("weather", JObj m);
                            ("air_quality", fst (get_air_quality lat lon e log1));
                            ("renewable_potential", rv);
                            ("nearby_emissions",
                             JObj [("error", JStr "float division by zero")]);
                            ("administrative_areas",
                             fst (ClimateTraceAPI.search_administrative_areas 5 0
                                    (Some [lon; lat]) None None None e log3));
                            ("timestamp",
                             JStr (now_iso e
                                     (snd (ClimateTraceAPI.search_administrative_areas
                                             5 0 (Some [lon; lat]) None None None
                                             e log3))))],
                      snd (ClimateTraceAPI.search_administrative_areas 5 0
                             (Some [lon; lat]) None None None e log3))).
    { unfold get_location_climate_profile. run. fold name. rewrite Hw.
      rewrite Ha. fold log2. rewrite Hr. rewrite Hzero.
      destruct (ClimateTraceAPI.search_administrative_areas _ _ _ _ _ _ e log3).
      reflexivity. }
    unfold value, log_after. rewrite Hrun. cbn [fst snd].
    do 6 eexists. split; [reflexivity|].
    split; [unfold is_error, field; unfold has_key in Herr;
            destruct (lookup "error" m); [discriminate Herr | reflexivity]|].
    split; [| intro H; contradiction].
    intros _. split; [reflexivity|].
    rewrite TraceFacts.search_administrative_areas_run. cbn zeta. cbn [snd].
    rewrite length_app, Hlen3. cbn [List.length]. lia.
  - destruct (Hnon Hlat) as (nv & q1 & q2 & Hn & Hnerr).
    set (log4 := (log3 ++ [q1; q2])%list) in *.
    assert (Hrun : get_location_climate_profile cx lat lon e log
                   = (JObj [("location", JObj [("lat", JFloat lat); ("lon", JFloat lon)]);
                            ("weather", JObj m);
                            ("air_quality", fst (get_air_quality lat lon e log1));
                            ("renewable_potential", rv);
                            ("nearby_emissions", nv);
                            ("administrative_areas",
                             fst (ClimateTraceAPI.search_administrative_areas 5 0
                                    (Some [lon; lat]) None None None e log4));
                            ("timestamp",
                             JStr (now_iso e
                                     (snd (ClimateTraceAPI.search_administrative_areas
                                             5 0 (Some [lon; lat]) None None None
                                             e log4))))],
                      snd (ClimateTraceAPI.search_administrative_areas 5 0
                             (Some [lon; lat]) None None None e log4))).
    { unfold get_location_climate_profile. run. fold name. rewrite Hw.
      rewrite Ha. fold log2. rewrite Hr. rewrite Hn.
      destruct (ClimateTraceAPI.search_administrative_areas _ _ _ _ _ _ e log4).
      reflexivity. }
    unfold value, log_after. rewrite Hrun. cbn [fst snd].
    do 6 eexists. split; [reflexivity|].
    split; [unfold is_error, field; unfold has_key in Herr;
            destruct (lookup "error" m); [discriminate Herr | reflexivity]|].
    split; [intro H; contradiction|].
    intros _. split; [exact Hnerr|].
    rewrite TraceFacts.search_administrative_areas_run. cbn zeta. cbn [snd].
    unfold log4. rewrite !length_app, Hlen3. cbn [List.length]. lia.
Qed.

Lemma location_profile_sections_witness :
  field "nearby_emissions"
    (value (get_location_climate_profile example_context 0 36.8)
       (constant_env unreachable) [])
  = Some (JObj [("error", JStr "float division by zero")]) /\
  List.length (log_after (get_location_climate_profile example_context 0 36.8)
                 (constant_env unreachable) []) = 5%nat /\
  List.length (log_after (get_location_climate_profile example_context 48.85 2.35)
                 (constant_env unreachable) []) = 7%nat.
Proof.
  destruct (location_profile_sections example_context 0 36.8
              (constant_env unreachable) [])
    as (w & a & r & n & ad & st & Hv & _ & Hzero & _).
  destruct (Hzero ltac:(reflexivity)) as [-> Hlen].
  destruct (location_profile_sections example_context 48.85 2.35
              (constant_env unreachable) [])
    as (w' & a' & r' & n' & ad' & st' & _ & _ & _ & Hnon).
  destruct (Hnon ltac:(intro H; discriminate H)) as [_ Hlen'].
  rewrite Hv. split; [reflexivity|]. split; [exact Hlen | exact Hlen'].
Defined.

(** [get_sector_analysis] always sends its three requests, all scoped to
    the one sector and year: the asset-emissions summary, the country
    summary, and the search for 100 sources.  It returns the six-field
    mapping, never an error mapping, each section holding what its own
    request gave. *)
Theorem sector_analysis_sections (sector : string) (year : Z) (e : env)
    (log : list request) :
  let base := CLIMATETRACE_API_BASE (cfg e) in
  let r1 := get_request (base ++ "/assets/emissions")
              [("years", JStr (str_int year)); ("sectors", JStr sector)] in
  let r2 := get_request (base ++ "/country/emissions")
              [("since", JInt (Z.max 2000 (Z.min year 2050)));
               ("to", JInt (Z.max 2000 (Z.min year 2050)));
               ("sector", JStr sector)] in
  let r3 := get_request (base ++ "/assets")
              [("limit", JInt 100); ("year", JInt year); ("offset", JInt 0);
               ("sectors", JStr sector)] in
  log_after (get_sector_analysis sector year) e log = (log ++ [r1; r2; r3])%list /\
  value (get_sector_analysis sector year) e log
  = JObj [("sector", JStr sector);
          ("year", JInt year);
          ("sector_emissions", answer e log r1);
          ("country_breakdown", answer e (log ++ [r1]) r2);
          ("major_sources", answer e (log ++ [r1; r2]) r3);
          ("analysis_timestamp", JStr (now_iso e (log ++ [r1; r2; r3])))] /\
  is_error (value (get_sector_analysis sector year) e log) = false.
Proof.
  intros base r1 r2 r3.
  assert (H : get_sector_analysis sector year e log
              = (JObj [("sector", JStr sector);
                       ("year", JInt year);
                       ("sector_emissions", answer e log r1);
                       ("country_breakdown", answer e (log ++ [r1]) r2);
                       ("major_sources", answer e (log ++ [r1; r2]) r3);
                       ("analysis_timestamp", JStr (now_iso e (log ++ [r1; r2; r3])))],
                 (log ++ [r1; r2; r3])%list)).
  { unfold get_sector_analysis. run.
    rewrite TraceFacts.get_asset_emissions_run. cbn zeta.
    rewrite TraceFacts.get_country_emissions_run. cbn zeta.
    rewrite TraceFacts.search_emissions_sources_run. cbn zeta.
    rewrite <- !app_assoc. reflexivity. }
  unfold log_after, value. rewrite H. repeat split.
Qed.

(** *** More on the heat map *)

Lemma heat_map_result_shape (ba : option bounds) (year : Z) (sector : option string)
    (e : env) (log : list request) (m : list (string * json)) :
  value (get_emissions_heat_map_data ba year sector) e log = JObj m ->
  has_key "error" m = false ->
  exists pts,
    m = [("points", JArr pts);
         ("bounds", bounds_json (effective_bounds ba));
         ("year", JInt year);
         ("sector", opt_str sector);
         ("total_sources", JInt (Z.of_nat (List.length pts)))].
Proof.
  intros Hv Herr. unfold value in Hv.
  rewrite get_emissions_heat_map_data_run in Hv. cbn zeta in Hv. cbn [fst] in Hv.
  destruct (py_contains "error" _) as [[|] |] eqn:Hc.
  - rewrite Hv in Hc. cbn [py_contains] in Hc. congruence.
  - destruct (heat_map_points_of _ _) as [pts | x].
    + injection Hv as <-. exists pts. reflexivity.
    + injection Hv as <-. discriminate Herr.
  - injection Hv as <-. discriminate Herr.
Qed.

Lemma heat_map_loop_length (b : bounds) (assets : list json) :
  forall acc pts,
    heat_map_loop b assets acc = Ok pts ->
    (List.length pts <= List.length acc + List.length assets)%nat.
Proof.
  induction assets as [| source rest IH]; intros acc pts H; cbn [heat_map_loop] in H.
  - injection H as <-. lia.
  - destruct (heat_map_point b source) as [[p |] |]; cbn [bindR] in H;
      [| | discriminate H]; apply IH in H; cbn [List.length];
      try rewrite length_app in H; cbn [List.length] in H; lia.
Qed.

(** In every result of [get_emissions_heat_map_data] that is not an error,
    ['total_sources'] is the number of entries of ['points'], which is at
    most the number of records the upstream returned, and ['year'] and
    ['sector'] are the caller's. *)
Theorem heat_map_count (ba : option bounds) (year : Z) (sector : option string)
    (e : env) (log : list request) (m : list (string * json)) :
  value (get_emissions_heat_map_data ba year sector) e log = JObj m ->
  has_key "error" m = false ->
  exists pts,
    lookup "points" m = Some (JArr pts) /\
    lookup "total_sources" m = Some (JInt (Z.of_nat (List.length pts))) /\
    (List.length pts
     <= List.length (records_of (assets_of
          (answer e log (heat_map_request (cfg e) year sector)))))%nat /\
    lookup "year" m = Some (JInt year) /\
    lookup "sector" m = Some (opt_str sector).
Proof.
  intros Hv Herr.
  destruct (heat_map_result_shape _ _ _ _ _ _ Hv Herr) as (pts & Hm).
  exists pts. subst m. split; [reflexivity|]. split; [reflexivity|].
  split; [| split; reflexivity].
  pose proof (heat_map_result_points _ _ _ _ _ _ pts Hv Herr eq_refl) as Hloop.
  apply heat_map_loop_length in Hloop. cbn [List.length] in Hloop. lia.
Qed.

Lemma heat_map_count_witness :
  exists pts,
    lookup "points"
      [("points", JArr [point_a]); ("bounds", bounds_json default_bounds);
       ("year", JInt 2022); ("sector", JStr "power"); ("total_sources", JInt 1)]
    = Some (JArr pts) /\
    List.length pts = 1%nat /\ (List.length pts <= 3)%nat.
Proof.
  destruct (heat_map_count None 2022 (Some "power")
              (constant_env (Resp assets_response)) []
              [("points", JArr [point_a]); ("bounds", bounds_json default_bounds);
               ("year", JInt 2022); ("sector", JStr "power");
               ("total_sources", JInt 1)] eq_refl eq_refl)
    as (pts & Hp & _ & Hle & _).
  exists pts. split; [exact Hp|]. cbn in Hp. injection Hp as <-.
  split; [reflexivity | exact Hle].
Defined.

(** A box whose west edge lies east of its east edge (as one that crosses
    the antimeridian does), or whose south edge lies north of its north
    edge, contains no point: every result that is not an error has an empty
    ['points'] list, whatever the upstream returned. *)
Theorem heat_map_inverted_box_empty (b : bounds) (year : Z) (sector : option string)
    (e : env) (log : list request) (m : list (string * json)) :
  (east b < west b)%Q \/ (north b < south b)%Q ->
  value (get_emissions_heat_map_data (Some b) year sector) e log = JObj m ->
  has_key "error" m = false ->
  lookup "points" m = Some (JArr []) /\
  lookup "total_sources" m = Some (JInt 0).
Proof.
  intros Hbox Hv Herr.
  destruct (heat_map_result_shape _ _ _ _ _ _ Hv Herr) as (pts & Hm).
  pose proof Hv as Hloop. subst m.
  apply (fun H => heat_map_result_points _ _ _ _ _ _ pts H Herr eq_refl) in Hloop.
  assert (Hnone : Forall (fun _ => False) pts).
  { apply (heat_map_loop_forall (fun _ => False) b) with (3 := Hloop); [| constructor].
    intros source p Hp. apply heat_map_point_some in Hp.
    destruct Hp as (lon & lat & em & id & nm & co & se & _ & Hin & _).
    apply in_bounds_true in Hin.
    destruct Hin as (x & y & _ & _ & H1 & H2 & H3 & H4).
    destruct Hbox; lra. }
  destruct pts as [| p pts]; [split; reflexivity|].
  inversion Hnone as [| ? ? F _]. contradiction.
Qed.

Lemma heat_map_inverted_box_empty_witness :
  lookup "points"
    [("points", JArr []); ("bounds", bounds_json (Bounds 60 (-60) (-170) 170));
     ("year", JInt 2022); ("sector", JNull); ("total_sources", JInt 0)]
  = Some (JArr []).
Proof.
  apply (heat_map_inverted_box_empty (Bounds 60 (-60) (-170) 170) 2022 None
           (constant_env (Resp assets_response)) []
           [("points", JArr []); ("bounds", bounds_json (Bounds 60 (-60) (-170) 170));
            ("year", JInt 2022); ("sector", JNull); ("total_sources", JInt 0)]).
  - left. vm_compute. reflexivity.
  - reflexivity.
  - reflexivity.
Defined.

(** *** More on the global overview *)

(** When the country-emissions request fails, or its body holds an
    ['error'] key, [get_global_emissions_overview] returns that error
    mapping at once: the sector catalogue is not requested. *)
Theorem overview_stops_on_failure (year : Z) (e : env) (log : list request) :
  (forall x,
     upstream e log (overview_request (cfg e) year) = Fail x ->
     get_global_emissions_overview year e log
     = (JObj [("error", JStr (exn_str x))],
        (log ++ [overview_request (cfg e) year])%list)) /\
  (forall body,
     upstream e log (overview_request (cfg e) year) = Resp (JObj body) ->
     has_key "error" body = true ->
     get_global_emissions_overview year e log
     = (JObj body, (log ++ [overview_request (cfg e) year])%list)).
Proof.
  split.
  - intros x Hx. rewrite get_global_emissions_overview_run. cbn zeta.
    unfold answer. rewrite Hx. reflexivity.
  - intros body Hb Herr. rewrite get_global_emissions_overview_run. cbn zeta.
    unfold answer. rewrite Hb. cbn [py_contains]. rewrite Herr. reflexivity.
Qed.

Lemma overview_stops_on_failure_witness :
  get_global_emissions_overview 2022 (constant_env unreachable) []
  = (JObj [("error", JStr "connection refused")],
     [overview_request example_settings 2022]).
Proof.
  apply (proj1 (overview_stops_on_failure 2022 (constant_env unreachable) [])
           (Exn RequestException "connection refused")).
  reflexivity.
Defined.



(** *** More on the carbon footprint *)

(** For a supported activity type, activity data that is not a mapping
    (None, a list, a number, ...) makes the payload construction raise: the
    call returns an error mapping and no request is sent. *)
Theorem carbon_footprint_needs_mapping (activity_type : string) (activity_data : json)
    (e : env) (log : list request) :
  activity_type = "electricity" \/ activity_type = "vehicle"
  \/ activity_type = "flight" ->
  is_obj activity_data = false ->
  exists message,
    calculate_carbon_footprint activity_type activity_data e log
    = (JObj [("error", JStr message)], log).
Proof.
  intros Ht Hd. unfold calculate_carbon_footprint. run.
  assert (Hp : exists x, _prepare_carbon_payload activity_type activity_data = Raise x).
  { unfold _prepare_carbon_payload.
    destruct Ht as [-> | [-> | ->]]; cbn [String.eqb Ascii.eqb Bool.eqb];
      destruct activity_data; try discriminate Hd; eexists; reflexivity. }
  destruct Hp as (x & ->). eexists. reflexivity.
Qed.

Lemma carbon_footprint_needs_mapping_witness :
  exists message,
    calculate_carbon_footprint "flight" JNull (constant_env unreachable) []
    = (JObj [("error", JStr message)], []).
Proof.
  apply (carbon_footprint_needs_mapping "flight" JNull (constant_env unreachable) []).
  - right. right. reflexivity.
  - reflexivity.
Defined.

End HandlerFacts.
